(** * ThingsBoard MCP server: the request-dispatch core

    A shallow embedding of [src/thingsboard.py]: the process-wide bearer
    token ([auth_token]), the login exchange ([get_auth_token]), the
    dispatcher ([make_thingsboard_request]) with its permission gate and
    its 401 refresh-and-retry, and the confirmed entry point
    ([execute_with_permission]).

    Python's effects are made explicit.  A computation is a function from
    the world (the global token and the log of network calls made so far)
    to a result and a new world; a result is a returned value or a raised
    exception.  The remote platform is an oracle that answers the k-th
    login exchange and the k-th resource request.  The [await] points are
    sequentialised: one invocation is followed from entry to exit. *)

From Stdlib Require Import String Ascii ZArith List Bool Lia Floats.
Import ListNotations.
Local Open Scope string_scope.
Local Open Scope Z_scope.

Set Warnings "-register-all".

(** ** Python values *)

(** What [response.json()] yields, and what the wrappers pass as query
    parameters and request bodies.  A [dict] keeps its insertion order and
    its keys are distinct. *)
Inductive json : Type :=
| JNull
| JBool (b : bool)
| JInt (n : Z)
| JFloat (f : float)
| JStr (s : string)
| JArr (items : list json)
| JObj (fields : list (string * json)).

Definition dict : Type := list (string * json).

(** [bool(v)]: the truth value Python gives to [v] in [if v:] and [not v]. *)
Definition truthy (v : json) : bool :=
  match v with
  | JNull => false
  | JBool b => b
  | JInt n => negb (n =? 0)
  | JFloat f => negb (PrimFloat.eqb f 0%float)
  | JStr s => negb (s =? "")%string
  | JArr items => match items with [] => false | _ :: _ => true end
  | JObj fields => match fields with [] => false | _ :: _ => true end
  end.

(** An [Optional[dict]] argument seen as a Python value. *)
Definition of_optional_dict (d : option dict) : json :=
  match d with
  | None => JNull
  | Some fields => JObj fields
  end.

(** An [Optional[str]] seen as a Python value. *)
Definition of_optional_str (s : option string) : json :=
  match s with
  | None => JNull
  | Some s => JStr s
  end.

(** An [Optional[int]] seen as a Python value. *)
Definition of_optional_int (n : option Z) : json :=
  match n with
  | None => JNull
  | Some n => JInt n
  end.

(** [if v: d[key] = v] for a key that [d] does not hold yet. *)
Definition set_if_truthy (key : string) (v : json) (d : dict) : dict :=
  if truthy v then (d ++ [(key, v)])%list else d.

(** [d.get(key)] on an association list. *)
Fixpoint dict_get (key : string) (d : dict) : option json :=
  match d with
  | [] => None
  | (k, v) :: rest => if (k =? key)%string then Some v else dict_get key rest
  end.

(** [sub in s] on strings, as a proposition. *)
Definition contains (s sub : string) : Prop :=
  exists pre post, s = pre ++ sub ++ post.

(** ** httpx: requests, responses, exceptions *)

(** The client method that is invoked: [client.get], [client.post],
    [client.put], [client.delete]. *)
Inductive Verb : Type := GET | POST | PUT | DELETE.

(** One HTTP call as the code issues it: [headers] only ever holds the
    [Authorization] entry, [params] is the [params=] argument and
    [json_body] the [json=] argument. *)
Record Request : Type := mkRequest {
  verb : Verb;
  url : string;
  authorization : option string;
  params : option dict;
  json_body : option json
}.

(** The body of a response: [response.json()] either yields a value or
    raises a decoding error with a text. *)
Inductive Body : Type :=
| Json (value : json)
| NotJson (detail : string).

Record Response : Type := mkResponse {
  status_code : Z;
  body : Body
}.

(** What one call on the client does: it yields a response, or raises an
    exception that is not an [HTTPStatusError] (connection refused, DNS,
    timeout, ...) whose [str] is [detail]. *)
Inductive Reply : Type :=
| Responded (response : Response)
| Failed (detail : string).

Inductive Exn : Type :=
| HTTPStatusError (response : Response)
| TransportError (detail : string)
| JSONDecodeError (detail : string)
| KeyError (key : string)
| TypeError (detail : string)
| ValueError (msg : string).

(** [response.is_success]: the status is 2xx. *)
Definition is_success (r : Response) : bool :=
  (200 <=? status_code r) && (status_code r <=? 299).

(** ** What the dispatcher returns *)

(** The permission request: the dict returned instead of executing a
    non-GET call, field by field. *)
Module PermissionRequest.
Record t : Type := mk {
  requires_permission : bool;
  method : string;
  endpoint : string;
  params : option dict;
  json_data : option dict;
  message : string
}.
End PermissionRequest.

(** One constructor per [return] statement of [make_thingsboard_request]. *)
Inductive Outcome : Type :=
| Payload (value : json)
    (* return response.json() *)
| Success
    (* return {"success": True} *)
| Permission (request : PermissionRequest.t)
    (* return {"requires_permission": True, ...} *)
| Unsupported (error : string)
    (* return {"error": f"Unsupported HTTP method: {method}"} *)
| Failure (error details : string).
    (* return {"error": ..., "details": str(e)} *)

(** The structured error records of the two kinds. *)
Definition is_error (o : Outcome) : bool :=
  match o with
  | Unsupported _ | Failure _ _ => true
  | _ => false
  end.

Definition is_permission (o : Outcome) : bool :=
  match o with
  | Permission _ => true
  | _ => false
  end.

(** ** The world *)

(** A network call that was made: a login exchange or a resource request. *)
Inductive Event : Type :=
| Login (q : Request)
| Send (q : Request).

(** The global [auth_token] ([JNull] is Python's [None]) and the calls made
    so far, newest first. *)
Record World : Type := mkWorld {
  auth_token : json;
  log : list Event
}.

Fixpoint logins (l : list Event) : nat :=
  match l with
  | [] => 0%nat
  | Login _ :: rest => S (logins rest)
  | Send _ :: rest => logins rest
  end.

Fixpoint sends (l : list Event) : nat :=
  match l with
  | [] => 0%nat
  | Login _ :: rest => sends rest
  | Send _ :: rest => S (sends rest)
  end.

(** The remote platform: its answer to the k-th login exchange and to the
    k-th resource request (counted from 0), given the request. *)
Record Remote : Type := mkRemote {
  login_reply : nat -> Request -> Reply;
  send_reply : nat -> Request -> Reply
}.

(** The module-level constants read from the environment by [os.getenv]. *)
Record Config : Type := mkConfig {
  THINGSBOARD_API_BASE : option string;
  THINGSBOARD_USERNAME : option string;
  THINGSBOARD_PASSWORD : option string
}.

(** The built-ins of Python and httpx whose text the code only passes on:
    [str(v)] of a value that is not a string, [s.lower()], the message of
    an [HTTPStatusError], and the message of the [TypeError] raised when a
    value that is not a dict is subscripted. *)
Record Runtime : Type := mkRuntime {
  py_repr : json -> string;
  py_lower : string -> string;
  status_error_text : Response -> string;
  subscript_error_text : json -> string
}.

(** ** Computations: state and exceptions *)

Inductive Res (A : Type) : Type :=
| Ret (a : A)
| Raised (e : Exn).
Arguments Ret {A} a.
Arguments Raised {A} e.

Definition M (A : Type) : Type := World -> Res A * World.

Definition ret {A} (a : A) : M A := fun w => (Ret a, w).

Definition raise {A} (e : Exn) : M A := fun w => (Raised e, w).

Definition bind {A B} (c : M A) (k : A -> M B) : M B :=
  fun w =>
    match c w with
    | (Ret a, w') => k a w'
    | (Raised e, w') => (Raised e, w')
    end.

(** [try: body  except ... as e: handler e].  An exception raised by the
    handler itself is not handled again: it leaves the statement. *)
Definition try_except {A} (body : M A) (handler : Exn -> M A) : M A :=
  fun w =>
    match body w with
    | (Ret a, w') => (Ret a, w')
    | (Raised e, w') => handler e w'
    end.

Declare Scope py_scope.
Delimit Scope py_scope with py.
Notation "x <- c ;; k" := (bind c (fun x => k))
  (at level 61, c at next level, right associativity) : py_scope.
Notation "c ;; k" := (bind c (fun _ => k))
  (at level 61, right associativity) : py_scope.
Local Open Scope py_scope.

Definition get_global : M json := fun w => (Ret (auth_token w), w).

Definition set_global (tok : json) : M unit :=
  fun w => (Ret tt, mkWorld tok (log w)).

(** The value of a run and the world it leaves. *)
Definition result {A} (r : Res A * World) : Res A := fst r.
Definition world {A} (r : Res A * World) : World := snd r.

(** The world once one more resource request has been issued. *)
Definition sent (w : World) (q : Request) : World :=
  mkWorld (auth_token w) (Send q :: log w).

Section Core.

Variable rt : Runtime.
Variable cfg : Config.
Variable remote : Remote.

(** [f"{v}"]: a string is inserted as it is, any other value through its
    [str]. *)
Definition fstr (v : json) : string :=
  match v with
  | JStr s => s
  | _ => py_repr rt v
  end.

(** [str(e)]. *)
Definition exn_str (e : Exn) : string :=
  match e with
  | HTTPStatusError r => status_error_text rt r
  | TransportError detail => detail
  | JSONDecodeError detail => detail
  | KeyError key => "'" ++ key ++ "'"
  | TypeError detail => detail
  | ValueError msg => msg
  end.

(** [response.raise_for_status()]. *)
Definition raise_for_status (r : Response) : M unit :=
  if is_success r then ret tt else raise (HTTPStatusError r).

(** [response.json()]. *)
Definition response_json (r : Response) : M json :=
  match body r with
  | Json value => ret value
  | NotJson detail => raise (JSONDecodeError detail)
  end.

(** [value[key]]. *)
Definition subscript (value : json) (key : string) : M json :=
  match value with
  | JObj fields =>
      match dict_get key fields with
      | Some v => ret v
      | None => raise (KeyError key)
      end
  | _ => raise (TypeError (subscript_error_text rt value))
  end.

(** A call on the synchronous client of [get_auth_token]. *)
Definition login_call (q : Request) : M Response :=
  fun w =>
    let w' := mkWorld (auth_token w) (Login q :: log w) in
    match login_reply remote (logins (log w)) q with
    | Responded r => (Ret r, w')
    | Failed detail => (Raised (TransportError detail), w')
    end.

(** A call on the [AsyncClient] of [make_thingsboard_request]. *)
Definition client_call (q : Request) : M Response :=
  fun w =>
    let w' := mkWorld (auth_token w) (Send q :: log w) in
    match send_reply remote (sends (log w)) q with
    | Responded r => (Ret r, w')
    | Failed detail => (Raised (TransportError detail), w')
    end.

Definition api_url (endpoint : string) : string :=
  fstr (of_optional_str (THINGSBOARD_API_BASE cfg)) ++ "/" ++ endpoint.

Definition login_request (username password : option string) : Request :=
  mkRequest POST (api_url "auth/login") None None
    (Some (JObj [("username", of_optional_str username);
                 ("password", of_optional_str password)])).

Definition get_auth_token (username password : option string) : M json :=
  try_except
    (response <- login_call (login_request username password) ;;
     raise_for_status response ;;
     value <- response_json response ;;
     subscript value "token")
    (fun e => raise (ValueError ("Error getting token: " ++ exn_str e))).

(** [if not auth_token: auth_token = get_auth_token(...)]. *)
Definition acquire_if_missing : M unit :=
  tok <- get_global ;;
  if negb (truthy tok) then
    tok' <- get_auth_token (THINGSBOARD_USERNAME cfg) (THINGSBOARD_PASSWORD cfg) ;;
    set_global tok'
  else ret tt.

(** [auth_token = get_auth_token(...)]. *)
Definition refresh : M unit :=
  tok' <- get_auth_token (THINGSBOARD_USERNAME cfg) (THINGSBOARD_PASSWORD cfg) ;;
  set_global tok'.

(** [{"Authorization": f"Bearer {auth_token}"}], read from the global. *)
Definition bearer : M string :=
  tok <- get_global ;;
  ret ("Bearer " ++ fstr tok).

(** The three statements that follow a call:
    [raise_for_status], the 204 test, [return response.json()]. *)
Definition conclude (response : Response) : M Outcome :=
  raise_for_status response ;;
  if status_code response =? 204 then ret Success
  else value <- response_json response ;; ret (Payload value).

Definition unable (what : string) (e : Exn) : Outcome :=
  Failure ("Unable to " ++ what ++ " data from ThingsBoard") (exn_str e).

(** The [operation_descriptions] table with its [get] default. *)
Definition operation_description (method : string) : string :=
  if (method =? "POST")%string then "create or add new data"
  else if (method =? "PUT")%string then "update existing data"
  else if (method =? "DELETE")%string then "permanently remove data"
  else "perform a " ++ method ++ " operation".

Definition data_info (json_data : option dict) : string :=
  if truthy (of_optional_dict json_data)
  then ", data: " ++ fstr (of_optional_dict json_data)
  else "".

Definition permission_message (endpoint method : string)
    (json_data : option dict) : string :=
  "This operation will " ++ operation_description method
    ++ " in ThingsBoard (" ++ ("endpoint: " ++ endpoint) ++ data_info json_data
    ++ "). Do you want to proceed?".

Definition permission_request (endpoint method : string)
    (params json_data : option dict) : PermissionRequest.t :=
  PermissionRequest.mk true method endpoint params json_data
    (permission_message endpoint method json_data).

(** The request of the GET branch. *)
Definition get_request (endpoint : string) (params : option dict)
    (authz : string) : Request :=
  mkRequest GET (api_url endpoint) (Some authz) params None.

(** The [if method == "POST" ... elif ... elif ...] chain: the call it
    makes, if any. *)
Definition mutation_request (endpoint method : string)
    (params json_data : option dict) (authz : string) : option Request :=
  if (method =? "POST")%string then
    Some (mkRequest POST (api_url endpoint) (Some authz) params
            (option_map JObj json_data))
  else if (method =? "PUT")%string then
    Some (mkRequest PUT (api_url endpoint) (Some authz) params
            (option_map JObj json_data))
  else if (method =? "DELETE")%string then
    Some (mkRequest DELETE (api_url endpoint) (Some authz) params None)
  else None.

Definition make_thingsboard_request (endpoint method : string)
    (params json_data : option dict) (permission_granted : bool) : M Outcome :=
  if (method =? "GET")%string then
    acquire_if_missing ;;
    authz <- bearer ;;
    try_except
      (response <- client_call (get_request endpoint params authz) ;;
       conclude response)
      (fun e =>
         match e with
         | HTTPStatusError r =>
             if status_code r =? 401 then
               refresh ;;
               authz' <- bearer ;;
               response <- client_call (get_request endpoint params authz') ;;
               conclude response
             else ret (unable "get" e)
         | _ => ret (unable "get" e)
         end)
  else if negb permission_granted then
    ret (Permission (permission_request endpoint method params json_data))
  else
    acquire_if_missing ;;
    authz <- bearer ;;
    try_except
      (match mutation_request endpoint method params json_data authz with
       | Some q => response <- client_call q ;; conclude response
       | None => ret (Unsupported ("Unsupported HTTP method: " ++ method))
       end)
      (fun e =>
         match e with
         | HTTPStatusError r =>
             if status_code r =? 401 then
               refresh ;;
               authz' <- bearer ;;
               response <-
                 match mutation_request endpoint method params json_data authz' with
                 | Some q => client_call q
                 | None => ret r (* no branch taken: [response] is unchanged *)
                 end ;;
               conclude response
             else ret (unable (py_lower rt method) e)
         | _ => ret (unable (py_lower rt method) e)
         end).

Definition execute_with_permission (method endpoint : string)
    (params json_data : option dict) : M Outcome :=
  make_thingsboard_request endpoint method params json_data true.

(** [handle_permission_request]: both branches return the response. *)
Definition handle_permission_request (response : Outcome) : M Outcome :=
  if is_permission response then ret response else ret response.

(** One of the resource wrappers that pass a lower-case method. *)
Definition get_alarm_comments (alarmId : string) (pageSize page : option Z)
    (sortProperty sortOrder : option string) : M Outcome :=
  let endpoint := "alarm/" ++ alarmId ++ "/comment" in
  let params := [] in
  let params := set_if_truthy "pageSize" (of_optional_int pageSize) params in
  let params := set_if_truthy "page" (of_optional_int page) params in
  let params := set_if_truthy "sortProperty" (of_optional_str sortProperty) params in
  let params := set_if_truthy "sortOrder" (of_optional_str sortOrder) params in
  make_thingsboard_request endpoint "get" (Some params) None false.

(** *** Reading a run *)

(** Whether the dispatcher goes past the permission gate. *)
Definition proceeds (method : string) (permission_granted : bool) : bool :=
  (method =? "GET")%string || permission_granted.

(** The resource request the dispatcher issues with the token held in
    [w], if the method has one. *)
Definition issued_request (endpoint method : string)
    (params json_data : option dict) (w : World) : option Request :=
  let authz := "Bearer " ++ fstr (auth_token w) in
  if (method =? "GET")%string then Some (get_request endpoint params authz)
  else mutation_request endpoint method params json_data authz.

(** The verb in the text of an error record: the literal of the GET
    branch, [method.lower()] in the other. *)
Definition lowered (method : string) : string :=
  if (method =? "GET")%string then "get" else py_lower rt method.

(** The success Outcome a 2xx response stands for: the marker for 204,
    the decoded body otherwise, and none when the body does not decode. *)
Definition success_outcome (r : Response) : option Outcome :=
  if status_code r =? 204 then Some Success
  else match body r with
       | Json value => Some (Payload value)
       | NotJson _ => None
       end.

(** The login exchange as the dispatcher performs it. *)
Definition login : Request :=
  login_request (THINGSBOARD_USERNAME cfg) (THINGSBOARD_PASSWORD cfg).

End Core.

(** ** Python values, continued: what the wrappers do to them *)

(** [d[key] = v]: the entry keeps its place when the key is there, and is
    added at the end when it is not. *)
Fixpoint dict_set (key : string) (v : json) (d : dict) : dict :=
  match d with
  | [] => [(key, v)]
  | (k, old) :: rest =>
      if (k =? key)%string then (k, v) :: rest
      else (k, old) :: dict_set key v rest
  end.

(** [d.update(other)]. *)
Definition dict_update (d other : dict) : dict :=
  fold_left (fun acc kv => dict_set (fst kv) (snd kv) acc) other d.

(** [key in d] for a dict. *)
Definition dict_has (key : string) (d : dict) : bool :=
  match dict_get key d with
  | Some _ => true
  | None => false
  end.

(** [needle in s] for two strings. *)
Fixpoint is_infix (needle s : string) : bool :=
  String.prefix needle s
  || match s with
     | EmptyString => false
     | String _ rest => is_infix needle rest
     end.

(** [v is not None]. *)
Definition is_not_none (v : json) : bool :=
  match v with
  | JNull => false
  | _ => true
  end.

(** [{k: v for k, v in d.items() if v is not None}]. *)
Definition drop_none (d : dict) : dict :=
  filter (fun kv => is_not_none (snd kv)) d.

(** [if v is not None: d[key] = v] for a key that [d] does not hold yet. *)
Definition set_if_not_none (key : string) (v : json) (d : dict) : dict :=
  if is_not_none v then (d ++ [(key, v)])%list else d.

(** The dict (or the decoded body) that each [return] statement of
    [make_thingsboard_request] hands to its caller. *)
Definition to_py (o : Outcome) : json :=
  match o with
  | Payload value => value
  | Success => JObj [("success", JBool true)]
  | Permission d =>
      JObj [("requires_permission", JBool (PermissionRequest.requires_permission d));
            ("method", JStr (PermissionRequest.method d));
            ("endpoint", JStr (PermissionRequest.endpoint d));
            ("params", of_optional_dict (PermissionRequest.params d));
            ("json_data", of_optional_dict (PermissionRequest.json_data d));
            ("message", JStr (PermissionRequest.message d))]
  | Unsupported error => JObj [("error", JStr error)]
  | Failure error details =>
      JObj [("error", JStr error); ("details", JStr details)]
  end.

(** What the three [if x: data[key] = x] statements of [update_device]
    make of a device object. *)
Definition with_texts (fields : dict) (name type label : option string) : dict :=
  let fields := if truthy (of_optional_str name)
                then dict_set "name" (of_optional_str name) fields else fields in
  let fields := if truthy (of_optional_str type)
                then dict_set "type" (of_optional_str type) fields else fields in
  if truthy (of_optional_str label)
  then dict_set "label" (of_optional_str label) fields else fields.

(** The exceptions of the wrappers: those of the dispatcher, and the
    [AttributeError] of a method call on a value that has no such method. *)
Inductive PyExn : Type :=
| FromCore (e : Exn)
| AttributeError (detail : string).

(** The texts of the errors Python raises for an operation on a value of
    the wrong type: [key in v], [v[key] = x], [v[key]] and [v.update]. *)
Record Messages : Type := mkMessages {
  not_iterable_text : json -> string;
  item_assignment_text : json -> string;
  index_text : json -> string;
  no_attribute_text : json -> string -> string
}.

(** The environment as the module reads it once [load_dotenv] has run, and
    the transports fastmcp knows ([get_args] of its [Transport] type) with
    the text Python prints for that tuple. *)
Record Host : Type := mkHost {
  environ : string -> option string;
  valid_transports : list string;
  valid_transports_text : string
}.

Definition newline : string := String (ascii_of_nat 10) EmptyString.

(** [os.getenv(key, default)]. *)
Definition getenv (h : Host) (key : string) (default : option string)
  : option string :=
  match environ h key with
  | Some v => Some v
  | None => default
  end.

(** The four module-level constants. *)
Definition MCP_SERVER_TRANSPORT (h : Host) : option string :=
  getenv h "MCP_SERVER_TRANSPORT" (Some "streamable-http").

Definition config_of (h : Host) : Config :=
  mkConfig (getenv h "THINGSBOARD_API_BASE" None)
           (getenv h "THINGSBOARD_USERNAME" None)
           (getenv h "THINGSBOARD_PASSWORD" None).

(** How the [__main__] block ends: [sys.exit(1)] after the lines it
    printed, an exception of the login exchange, or [mcp.run] on a
    transport. *)
Inductive Startup : Type :=
| Exit (status : Z) (printed : list string)
| Crashed (e : Exn)
| Serving (transport : string).

Section Wrappers.

Variable rt : Runtime.
Variable msg : Messages.
Variable cfg : Config.
Variable remote : Remote.

Definition get_device_by_id (device_id : string) : M Outcome :=
  make_thingsboard_request rt cfg remote ("device/" ++ device_id) "GET"
    None None false.

(** The [data] dict of [create_device]. *)
Definition create_device_data (name type : string)
    (label device_profile_id : option string) (additional_info : option dict)
  : dict :=
  let data := [("name", JStr name); ("type", JStr type)] in
  let data := if truthy (of_optional_str label)
              then dict_set "label" (of_optional_str label) data else data in
  let data := if truthy (of_optional_str device_profile_id)
              then dict_set "deviceProfileId"
                     (JObj [("id", of_optional_str device_profile_id)]) data
              else data in
  let data := if truthy (of_optional_dict additional_info)
              then dict_set "additionalInfo" (of_optional_dict additional_info) data
              else data in
  data.

Definition create_device (name type : string)
    (label device_profile_id : option string) (additional_info : option dict)
  : M Outcome :=
  let endpoint := "device" in
  let data := create_device_data name type label device_profile_id additional_info in
  response <- make_thingsboard_request rt cfg remote endpoint "POST" None
                (Some data) false ;;
  handle_permission_request response.

Definition get_alarms (entity_type entity_id : string)
    (search_status severity : option string) (page page_size : Z) : M Outcome :=
  let endpoint := "alarm/{entity_type}/{entity_id}" in
  let params := [("page", JInt page); ("pageSize", JInt page_size)] in
  let params := set_if_truthy "searchStatus" (of_optional_str search_status) params in
  let params := set_if_truthy "severity" (of_optional_str severity) params in
  make_thingsboard_request rt cfg remote endpoint "GET" (Some params) None false.

Definition acknowledge_alarm (alarm_id : string) : M Outcome :=
  let endpoint := "alarm/" ++ alarm_id ++ "/ack" in
  response <- make_thingsboard_request rt cfg remote endpoint "POST" None None false ;;
  handle_permission_request response.

Definition ack_alarm (alarmId : string) : M Outcome :=
  let endpoint := "alarm/" ++ alarmId ++ "/ack" in
  make_thingsboard_request rt cfg remote endpoint "post" None None false.

Definition assign_alarm (alarmId assigneeId : string) : M Outcome :=
  let endpoint := "alarm/" ++ alarmId ++ "/assign/" ++ assigneeId in
  make_thingsboard_request rt cfg remote endpoint "post" None None false.

Definition get_alarm_info_by_id (alarmId : string) : M Outcome :=
  let endpoint := "alarm/info/" ++ alarmId in
  make_thingsboard_request rt cfg remote endpoint "get" None None false.

Definition save_relation (json_data : dict) : M Outcome :=
  let endpoint := "relation" in
  make_thingsboard_request rt cfg remote endpoint "post" None (Some json_data) false.

Definition delete_device_profile (deviceProfileId : string) : M Outcome :=
  let endpoint := "deviceProfile/" ++ deviceProfileId in
  make_thingsboard_request rt cfg remote endpoint "delete" None None false.

(** The [params] of [get_entity_relations], after the [None] values are
    removed. *)
Definition get_entity_relations_params (entity_id entity_type : string)
    (relation_type : option string) (direction : string) : dict :=
  drop_none
    [("fromId", if (direction =? "FROM")%string then JStr entity_id else JNull);
     ("fromType", if (direction =? "FROM")%string then JStr entity_type else JNull);
     ("toId", if (direction =? "TO")%string then JStr entity_id else JNull);
     ("toType", if (direction =? "TO")%string then JStr entity_type else JNull);
     ("relationType", of_optional_str relation_type)].

Definition get_entity_relations (entity_id entity_type : string)
    (relation_type : option string) (direction : string) : M Outcome :=
  let endpoint := "relations" in
  let params :=
    get_entity_relations_params entity_id entity_type relation_type direction in
  make_thingsboard_request rt cfg remote endpoint "GET" (Some params) None false.

Definition get_notification_requests (pageSize page : Z)
    (textSearch sortProperty sortOrder : option string) : M Outcome :=
  let endpoint := "notification/requests" in
  let params := [("pageSize", JInt pageSize); ("page", JInt page)] in
  let params := set_if_not_none "textSearch" (of_optional_str textSearch) params in
  let params := set_if_not_none "sortProperty" (of_optional_str sortProperty) params in
  let params := set_if_not_none "sortOrder" (of_optional_str sortOrder) params in
  make_thingsboard_request rt cfg remote endpoint "get" (Some params) None false.

(** *** [update_device]: read, merge, ask *)

(** [key in v]. *)
Definition py_in (key : string) (v : json) : bool + PyExn :=
  match v with
  | JObj fields => inl (dict_has key fields)
  | JArr items =>
      inl (existsb (fun x => match x with
                             | JStr s => (s =? key)%string
                             | _ => false
                             end) items)
  | JStr s => inl (is_infix key s)
  | _ => inr (FromCore (TypeError (not_iterable_text msg v)))
  end.

(** [v[key] = x]. *)
Definition set_item (v : json) (key : string) (x : json) : json + PyExn :=
  match v with
  | JObj fields => inl (JObj (dict_set key x fields))
  | _ => inr (FromCore (TypeError (item_assignment_text msg v)))
  end.

(** [v[key]]. *)
Definition get_item (v : json) (key : string) : json + PyExn :=
  match v with
  | JObj fields =>
      match dict_get key fields with
      | Some x => inl x
      | None => inr (FromCore (KeyError key))
      end
  | _ => inr (FromCore (TypeError (index_text msg v)))
  end.

(** [if x: data[key] = x]. *)
Definition set_if_given (data : json) (key : string) (x : json) : json + PyExn :=
  if truthy x then set_item data key x else inl data.

(** The [if additional_info:] block: the entry is created when it is
    missing, and the dict found there is updated in place. *)
Definition merge_additional_info (data : json) (additional_info : option dict)
  : json + PyExn :=
  match additional_info with
  | Some ((_ :: _) as info) =>
      match py_in "additionalInfo" data with
      | inr e => inr e
      | inl present =>
          match (if present then inl data
                 else set_item data "additionalInfo" (JObj [])) with
          | inr e => inr e
          | inl data =>
              match get_item data "additionalInfo" with
              | inr e => inr e
              | inl (JObj held) =>
                  set_item data "additionalInfo" (JObj (dict_update held info))
              | inl other =>
                  inr (AttributeError (no_attribute_text msg other "update"))
              end
          end
      end
  | _ => inl data
  end.

(** The statements of [update_device] between the read and the request. *)
Definition merged_device (data : json) (name type label : option string)
    (additional_info : option dict) : json + PyExn :=
  match set_if_given data "name" (of_optional_str name) with
  | inr e => inr e
  | inl data =>
      match set_if_given data "type" (of_optional_str type) with
      | inr e => inr e
      | inl data =>
          match set_if_given data "label" (of_optional_str label) with
          | inr e => inr e
          | inl data => merge_additional_info data additional_info
          end
      end
  end.

(** The dict a call without permission returns for a method other than
    GET, for any value passed as [json_data]. *)
Definition permission_reply (endpoint method : string) (params : option dict)
    (json_data : json) : json :=
  JObj [("requires_permission", JBool true);
        ("method", JStr method);
        ("endpoint", JStr endpoint);
        ("params", of_optional_dict params);
        ("json_data", json_data);
        ("message",
         JStr ("This operation will " ++ operation_description method
               ++ " in ThingsBoard (" ++ ("endpoint: " ++ endpoint)
               ++ (if truthy json_data then ", data: " ++ fstr rt json_data else "")
               ++ "). Do you want to proceed?"))].

Definition update_device (device_id : string) (name type label : option string)
    (additional_info : option dict) : World -> (json + PyExn) * World :=
  fun w =>
    match get_device_by_id device_id w with
    | (Raised e, w1) => (inr (FromCore e), w1)
    | (Ret current, w1) =>
        let current_device := to_py current in
        match py_in "error" current_device with
        | inr e => (inr e, w1)
        | inl true => (inl current_device, w1)
        | inl false =>
            match merged_device current_device name type label additional_info with
            | inr e => (inr e, w1)
            | inl (JObj data) =>
                match (response <- make_thingsboard_request rt cfg remote
                                     "device" "POST" None (Some data) false ;;
                       handle_permission_request response) w1 with
                | (Ret response, w2) => (inl (to_py response), w2)
                | (Raised e, w2) => (inr (FromCore e), w2)
                end
            | inl data =>
                (* [json_data] is no dict: the same reply, with [data] in it *)
                (inl (permission_reply "device" "POST" None data), w1)
            end
        end
    end.

(** A wrapper that leads nowhere: it is answered with a permission request,
    and replaying that request with permission never sends it. *)
Definition dead_end (run : M Outcome) : Prop :=
  forall w,
    exists d,
      run w = (Ret (Permission d), w)
      /\ forall w',
           let replay :=
             execute_with_permission rt cfg remote
               (PermissionRequest.method d) (PermissionRequest.endpoint d)
               (PermissionRequest.params d) (PermissionRequest.json_data d) w' in
           sends (log (world replay)) = sends (log w')
           /\ forall o, result replay = Ret o ->
                        o = Unsupported ("Unsupported HTTP method: "
                                         ++ PermissionRequest.method d).

End Wrappers.

(** ** Startup *)

Section Startup.

Variable rt : Runtime.
Variable host : Host.
Variable remote : Remote.

(** [is_valid_transport]: the answer and what it prints. *)
Definition is_valid_transport (transport : string) : bool * list string :=
  if negb (existsb (String.eqb transport) (valid_transports host))
  then (false,
        ["Invalid MCP server transport: '" ++ transport ++ "'!" ++ newline
         ++ "Valid transports: '" ++ valid_transports_text host ++ "'"])
  else (true, []).

(** The [__main__] block. *)
Definition main : World -> Startup * World :=
  fun w =>
    match MCP_SERVER_TRANSPORT host with
    | None => (Exit 1 ["Missing or invalid MCP_SERVER_TRANSPORT environment variable"], w)
    | Some transport =>
        let (valid, printed) := is_valid_transport transport in
        if negb valid then
          (Exit 1 (printed ++ ["Missing or invalid MCP_SERVER_TRANSPORT environment variable"])%list, w)
        else if negb (is_not_none (of_optional_str (THINGSBOARD_API_BASE (config_of host)))) then
          (Exit 1 ["Missing THINGSBOARD_API_BASE environment variable"], w)
        else if negb (is_not_none (of_optional_str (THINGSBOARD_USERNAME (config_of host)))) then
          (Exit 1 ["Missing THINGSBOARD_USERNAME environment variable"], w)
        else if negb (is_not_none (of_optional_str (THINGSBOARD_PASSWORD (config_of host)))) then
          (Exit 1 ["Missing THINGSBOARD_PASSWORD environment variable"], w)
        else
          match get_auth_token rt (config_of host) remote
                  (THINGSBOARD_USERNAME (config_of host))
                  (THINGSBOARD_PASSWORD (config_of host)) w with
          | (Raised e, w') => (Crashed e, w')
          | (Ret tok, w') => (Serving transport, mkWorld tok (log w'))
          end
    end.

End Startup.

(** ** Stub platforms

    Scripted remotes in the manner of a test double: the k-th reply is the
    k-th entry of a list, whatever the request; past the end of the script
    the connection is refused. *)
Module Stub.

Definition lower_ascii (c : ascii) : ascii :=
  let n := nat_of_ascii c in
  if ((65 <=? n) && (n <=? 90))%nat then ascii_of_nat (n + 32) else c.

Fixpoint lower (s : string) : string :=
  match s with
  | EmptyString => EmptyString
  | String c rest => String (lower_ascii c) (lower rest)
  end.

Definition runtime : Runtime :=
  mkRuntime (fun _ => "<value>") lower
    (fun _ => "HTTP status error") (fun _ => "not subscriptable").

Definition config : Config :=
  mkConfig (Some "http://tb/api") (Some "tenant") (Some "secret").

Definition scripted (script : list Reply) : nat -> Request -> Reply :=
  fun k _ => nth k script (Failed "connection refused").

Definition remote (login_script send_script : list Reply) : Remote :=
  mkRemote (scripted login_script) (scripted send_script).

Definition token (tok : string) : Reply :=
  Responded (mkResponse 200 (Json (JObj [("token", JStr tok)]))).

Definition status (code : Z) : Reply :=
  Responded (mkResponse code (NotJson "Expecting value")).

Definition ok (value : json) : Reply :=
  Responded (mkResponse 200 (Json value)).

Definition fresh : World := mkWorld JNull [].

Definition holding (tok : string) : World := mkWorld (JStr tok) [].

End Stub.

(** Texts and hosts for the wrappers and the startup. *)
Module StubHost.

Definition messages : Messages :=
  mkMessages (fun _ => "not iterable") (fun _ => "no item assignment")
    (fun _ => "bad index") (fun _ name => "no attribute " ++ name).

Definition host (vars : list (string * string)) : Host :=
  mkHost (fun key => option_map snd
                       (find (fun kv => (fst kv =? key)%string) vars))
    ["stdio"; "http"; "sse"; "streamable-http"]
    "('stdio', 'http', 'sse', 'streamable-http')".

Definition device (fields : dict) : Reply :=
  Responded (mkResponse 200 (Json (JObj fields))).

End StubHost.

(** ** Stepping through a computation *)

Lemma bind_ret {A B} (c : M A) (k : A -> M B) w a w' :
  c w = (Ret a, w') -> bind c k w = k a w'.
Proof. intros H. unfold bind. now rewrite H. Qed.

Lemma bind_raised {A B} (c : M A) (k : A -> M B) w e w' :
  c w = (Raised e, w') -> bind c k w = (Raised e, w').
Proof. intros H. unfold bind. now rewrite H. Qed.

Lemma try_ret {A} (c : M A) (h : Exn -> M A) w a w' :
  c w = (Ret a, w') -> try_except c h w = (Ret a, w').
Proof. intros H. unfold try_except. now rewrite H. Qed.

Lemma try_raised {A} (c : M A) (h : Exn -> M A) w e w' :
  c w = (Raised e, w') -> try_except c h w = h e w'.
Proof. intros H. unfold try_except. now rewrite H. Qed.

Lemma contains_middle (pre sub post : string) :
  contains (pre ++ sub ++ post) sub.
Proof. now exists pre, post. Qed.

Lemma eqb_neq_false (a b : string) : a <> b -> (a =? b)%string = false.
Proof. intros H. now apply String.eqb_neq. Qed.

Section Properties.

Variable rt : Runtime.
Variable cfg : Config.
Variable remote : Remote.

Abbreviation dispatch := (make_thingsboard_request rt cfg remote).
Abbreviation acquire := (acquire_if_missing rt cfg remote).
Abbreviation request_for := (issued_request rt cfg).

(** *** The login exchange *)

(** [get_auth_token] makes exactly one login call and leaves the global
    alone, whatever the answer. *)
Lemma get_auth_token_world u p w :
  world (get_auth_token rt cfg remote u p w)
  = mkWorld (auth_token w) (Login (login_request rt cfg u p) :: log w).
Proof.
  unfold get_auth_token, try_except, bind, login_call, raise_for_status,
    response_json, subscript, raise, ret, world.
  destruct (login_reply remote _ _) as [r|d]; simpl; [|reflexivity].
  destruct (is_success r); simpl; [|reflexivity].
  destruct (body r) as [v|d]; simpl; [|reflexivity].
  destruct v; simpl; try reflexivity.
  destruct (dict_get _ _); reflexivity.
Qed.

(** Whatever goes wrong in the login exchange leaves [get_auth_token] as
    a [ValueError]. *)
Lemma get_auth_token_raises u p w e :
  result (get_auth_token rt cfg remote u p w) = Raised e ->
  exists msg, e = ValueError ("Error getting token: " ++ msg).
Proof.
  unfold get_auth_token, try_except, bind, login_call, raise_for_status,
    response_json, subscript, raise, ret, result.
  destruct (login_reply remote _ _) as [r|d]; simpl.
  2: { intros [= <-]. eauto. }
  destruct (is_success r); simpl.
  2: { intros [= <-]. eauto. }
  destruct (body r) as [v|d]; simpl.
  2: { intros [= <-]. eauto. }
  destruct v; simpl; try (intros [= <-]; eauto).
  destruct (dict_get _ _); simpl; [discriminate|].
  intros [= <-]. eauto.
Qed.

(** *** Lazy acquisition and forced refresh *)

Lemma acquire_held w :
  truthy (auth_token w) = true -> acquire w = (Ret tt, w).
Proof.
  intros H. unfold acquire_if_missing, bind, get_global. now rewrite H.
Qed.

Lemma refresh_ret w w2 :
  refresh rt cfg remote w = (Ret tt, w2) ->
  log w2 = Login (login rt cfg) :: log w.
Proof.
  unfold refresh, bind, set_global, login.
  pose proof (get_auth_token_world (THINGSBOARD_USERNAME cfg)
                (THINGSBOARD_PASSWORD cfg) w) as Hw.
  destruct (get_auth_token _ _ _ _ _ w) as [[tok|e] w']; simpl in *.
  - intros [= <-]. simpl. now rewrite Hw.
  - discriminate.
Qed.

Lemma refresh_raised w e w2 :
  refresh rt cfg remote w = (Raised e, w2) ->
  w2 = mkWorld (auth_token w) (Login (login rt cfg) :: log w)
  /\ exists msg, e = ValueError ("Error getting token: " ++ msg).
Proof.
  unfold refresh, bind, set_global, login.
  pose proof (get_auth_token_world (THINGSBOARD_USERNAME cfg)
                (THINGSBOARD_PASSWORD cfg) w) as Hw.
  pose proof (get_auth_token_raises (THINGSBOARD_USERNAME cfg)
                (THINGSBOARD_PASSWORD cfg) w) as He.
  destruct (get_auth_token _ _ _ _ _ w) as [[tok|e'] w']; simpl in *.
  - discriminate.
  - intros [= <- <-]. split; [exact Hw | now apply He].
Qed.

Lemma acquire_missing w :
  truthy (auth_token w) = false -> acquire w = refresh rt cfg remote w.
Proof.
  intros H. unfold acquire_if_missing, refresh, bind at 1, get_global.
  now rewrite H.
Qed.

Lemma acquire_ret w w1 :
  acquire w = (Ret tt, w1) ->
  (truthy (auth_token w) = true /\ w1 = w)
  \/ (truthy (auth_token w) = false
      /\ log w1 = Login (login rt cfg) :: log w).
Proof.
  destruct (truthy (auth_token w)) eqn:T.
  - rewrite (acquire_held w T). intros [= <-]. now left.
  - rewrite (acquire_missing w T). intros H. right. split; [reflexivity|].
    now apply refresh_ret.
Qed.

Lemma acquire_raised w e w1 :
  acquire w = (Raised e, w1) ->
  truthy (auth_token w) = false
  /\ w1 = mkWorld (auth_token w) (Login (login rt cfg) :: log w)
  /\ exists msg, e = ValueError ("Error getting token: " ++ msg).
Proof.
  destruct (truthy (auth_token w)) eqn:T.
  - rewrite (acquire_held w T). discriminate.
  - rewrite (acquire_missing w T). intros H. split; [reflexivity|].
    now apply refresh_raised.
Qed.

Lemma acquire_sends w w1 :
  acquire w = (Ret tt, w1) -> sends (log w1) = sends (log w).
Proof.
  intros H. destruct (acquire_ret w w1 H) as [[_ ->]|[_ E]]; [reflexivity|].
  now rewrite E.
Qed.

(** *** The permission gate *)

Lemma gate_closed endpoint method params json_data w :
  method <> "GET" ->
  dispatch endpoint method params json_data false w
  = (Ret (Permission (permission_request rt endpoint method params json_data)), w).
Proof.
  intros H. unfold make_thingsboard_request.
  now rewrite (eqb_neq_false _ _ H).
Qed.

(** C1. A request with a method other than GET and no permission is answered
    with a permission request whose method, endpoint, params and json_data
    are the arguments themselves; the run makes no network call (the log is
    unchanged) and acquires no credential (the token is unchanged). *)
Theorem C1_unconfirmed_mutation_echoes_request endpoint method params json_data w :
  method <> "GET" ->
  exists d,
    dispatch endpoint method params json_data false w = (Ret (Permission d), w)
    /\ PermissionRequest.requires_permission d = true
    /\ PermissionRequest.method d = method
    /\ PermissionRequest.endpoint d = endpoint
    /\ PermissionRequest.params d = params
    /\ PermissionRequest.json_data d = json_data
    /\ log (world (dispatch endpoint method params json_data false w)) = log w
    /\ auth_token (world (dispatch endpoint method params json_data false w))
       = auth_token w.
Proof.
  intros H. rewrite (gate_closed endpoint method params json_data w H).
  eexists. split; [reflexivity|]. simpl. repeat split.
Qed.

(** C6. The confirmed entry point is the dispatcher with the permission
    flag set: the two are the same computation. *)
Theorem C6_execute_with_permission_is_granted_dispatch
    method endpoint params json_data :
  execute_with_permission rt cfg remote method endpoint params json_data
  = dispatch endpoint method params json_data true.
Proof. reflexivity. Qed.

Lemma message_contains_description endpoint method json_data :
  contains (permission_message rt endpoint method json_data)
           (operation_description method).
Proof. unfold permission_message. apply contains_middle. Qed.

(** C8. The message of the permission request names the effect of the
    method: "create or add new data" for POST, "update existing data" for
    PUT, "permanently remove data" for DELETE and "perform a <METHOD>
    operation" for any other method that is not GET; and an unconfirmed
    DELETE of device/abc is answered with a request that requires
    permission, has method DELETE and endpoint device/abc, and whose message
    contains "permanently remove data". *)
Theorem C8_message_names_the_effect endpoint method params json_data w :
  method <> "GET" ->
  (exists d,
     result (dispatch endpoint method params json_data false w)
     = Ret (Permission d)
     /\ PermissionRequest.requires_permission d = true
     /\ (method = "POST" ->
         contains (PermissionRequest.message d) "create or add new data")
     /\ (method = "PUT" ->
         contains (PermissionRequest.message d) "update existing data")
     /\ (method = "DELETE" ->
         contains (PermissionRequest.message d) "permanently remove data")
     /\ (method <> "POST" -> method <> "PUT" -> method <> "DELETE" ->
         contains (PermissionRequest.message d)
                  ("perform a " ++ method ++ " operation")))
  /\ (exists d,
        result (dispatch "device/abc" "DELETE" params json_data false w)
        = Ret (Permission d)
        /\ PermissionRequest.requires_permission d = true
        /\ PermissionRequest.method d = "DELETE"
        /\ PermissionRequest.endpoint d = "device/abc"
        /\ contains (PermissionRequest.message d) "permanently remove data").
Proof.
  intros H. split.
  - rewrite (gate_closed endpoint method params json_data w H).
    eexists. split; [reflexivity|]. simpl.
    pose proof (message_contains_description endpoint method json_data) as C.
    split; [reflexivity|].
    repeat split.
    + intros ->. exact C.
    + intros ->. exact C.
    + intros ->. exact C.
    + intros H1 H2 H3. unfold operation_description in C.
      now rewrite !eqb_neq_false in C by assumption.
  - eexists. split; [reflexivity|]. simpl. repeat split.
    apply (message_contains_description "device/abc" "DELETE" json_data).
Qed.

(** *** Past the gate *)

Lemma conclude_204 r w :
  is_success r = true -> status_code r = 204 ->
  conclude r w = (Ret Success, w).
Proof.
  intros S E. unfold conclude, bind, raise_for_status.
  rewrite S. simpl. unfold ret. now rewrite E.
Qed.

Lemma conclude_json r w value :
  is_success r = true -> status_code r <> 204 -> body r = Json value ->
  conclude r w = (Ret (Payload value), w).
Proof.
  intros S E B. unfold conclude, bind, raise_for_status, response_json.
  rewrite S. simpl. unfold ret.
  destruct (status_code r =? 204) eqn:Q; [apply Z.eqb_eq in Q; contradiction|].
  now rewrite B.
Qed.

Lemma conclude_not_json r w detail :
  is_success r = true -> status_code r <> 204 -> body r = NotJson detail ->
  conclude r w = (Raised (JSONDecodeError detail), w).
Proof.
  intros S E B. unfold conclude, bind, raise_for_status, response_json.
  rewrite S. simpl. unfold ret.
  destruct (status_code r =? 204) eqn:Q; [apply Z.eqb_eq in Q; contradiction|].
  now rewrite B.
Qed.

Lemma conclude_status_error r w :
  is_success r = false ->
  conclude r w = (Raised (HTTPStatusError r), w).
Proof.
  intros S. unfold conclude, bind, raise_for_status. now rewrite S.
Qed.

Lemma unauthorized_not_success r : status_code r = 401 -> is_success r = false.
Proof. intros E. unfold is_success. now rewrite E. Qed.

Lemma no_content_success r : status_code r = 204 -> is_success r = true.
Proof. intros E. unfold is_success. now rewrite E. Qed.

Lemma client_call_world q w res w' :
  client_call remote q w = (res, w') -> w' = sent w q.
Proof.
  unfold client_call, sent.
  destruct (send_reply remote _ _); now intros [= _ <-].
Qed.

Lemma dispatch_acquire_fails endpoint method params json_data granted w e w1 :
  proceeds method granted = true ->
  acquire w = (Raised e, w1) ->
  dispatch endpoint method params json_data granted w = (Raised e, w1).
Proof.
  unfold proceeds, make_thingsboard_request. intros P A.
  destruct (method =? "GET")%string; simpl in P.
  - now rewrite (bind_raised _ _ _ _ _ A).
  - rewrite P. simpl. now rewrite (bind_raised _ _ _ _ _ A).
Qed.

Ltac past_gate P A Q :=
  unfold proceeds, issued_request, make_thingsboard_request in *;
  let G := fresh "G" in
  destruct (_ =? "GET")%string eqn:G; simpl in P;
  [ rewrite (bind_ret _ _ _ _ _ A);
    unfold bearer at 1, get_global, bind at 1 2; unfold ret at 1;
    cbv beta iota; try (injection Q as <-)
  | rewrite P; cbv beta iota delta [negb];
    rewrite (bind_ret _ _ _ _ _ A);
    unfold bearer at 1, get_global, bind at 1 2; unfold ret at 1;
    cbv beta iota; rewrite Q ].

Ltac second_request Q2 :=
  unfold bearer at 1, get_global, bind at 1 2; unfold ret at 1;
  cbv beta iota;
  first [ injection Q2 as <- | rewrite Q2 ].

(** The method has no client call: the unsupported-method record, once the
    credential step is over. *)
Lemma dispatch_unsupported endpoint method params json_data granted w w1 :
  proceeds method granted = true ->
  acquire w = (Ret tt, w1) ->
  request_for endpoint method params json_data w1 = None ->
  dispatch endpoint method params json_data granted w
  = (Ret (Unsupported ("Unsupported HTTP method: " ++ method)), w1).
Proof.
  intros P A Q. past_gate P A Q; [discriminate | reflexivity].
Qed.

(** The first call returns or raises inside the [try] body and no 401 is
    involved: the value is returned, the exception becomes a record. *)
Lemma dispatch_first_returns endpoint method params json_data granted
    w w1 q1 r1 w1' o :
  proceeds method granted = true ->
  acquire w = (Ret tt, w1) ->
  request_for endpoint method params json_data w1 = Some q1 ->
  client_call remote q1 w1 = (Ret r1, w1') ->
  conclude r1 w1' = (Ret o, w1') ->
  dispatch endpoint method params json_data granted w = (Ret o, w1').
Proof.
  intros P A Q C K.
  past_gate P A Q;
    apply try_ret; now rewrite (bind_ret _ _ _ _ _ C).
Qed.

Lemma dispatch_first_fails endpoint method params json_data granted
    w w1 q1 detail w1' :
  proceeds method granted = true ->
  acquire w = (Ret tt, w1) ->
  request_for endpoint method params json_data w1 = Some q1 ->
  client_call remote q1 w1 = (Raised (TransportError detail), w1') ->
  dispatch endpoint method params json_data granted w
  = (Ret (unable rt (lowered rt method) (TransportError detail)), w1').
Proof.
  intros P A Q C. unfold lowered.
  past_gate P A Q;
    now rewrite (try_raised _ _ _ _ _ (bind_raised _ _ _ _ _ C)).
Qed.

Lemma dispatch_first_not_json endpoint method params json_data granted
    w w1 q1 r1 w1' detail :
  proceeds method granted = true ->
  acquire w = (Ret tt, w1) ->
  request_for endpoint method params json_data w1 = Some q1 ->
  client_call remote q1 w1 = (Ret r1, w1') ->
  conclude r1 w1' = (Raised (JSONDecodeError detail), w1') ->
  dispatch endpoint method params json_data granted w
  = (Ret (unable rt (lowered rt method) (JSONDecodeError detail)), w1').
Proof.
  intros P A Q C K. unfold lowered.
  past_gate P A Q.
  - rewrite (try_raised _ _ w1 (JSONDecodeError detail) w1'); [reflexivity|].
    now rewrite (bind_ret _ _ _ _ _ C).
  - rewrite (try_raised _ _ w1 (JSONDecodeError detail) w1'); [reflexivity|].
    now rewrite (bind_ret _ _ _ _ _ C).
Qed.

Lemma dispatch_first_status endpoint method params json_data granted
    w w1 q1 r1 w1' :
  proceeds method granted = true ->
  acquire w = (Ret tt, w1) ->
  request_for endpoint method params json_data w1 = Some q1 ->
  client_call remote q1 w1 = (Ret r1, w1') ->
  is_success r1 = false ->
  status_code r1 <> 401 ->
  dispatch endpoint method params json_data granted w
  = (Ret (unable rt (lowered rt method) (HTTPStatusError r1)), w1').
Proof.
  intros P A Q C S N. unfold lowered.
  apply Z.eqb_neq in N.
  pose proof (conclude_status_error r1 w1' S) as K.
  past_gate P A Q.
  - rewrite (try_raised _ _ w1 (HTTPStatusError r1) w1').
    + cbv beta iota. now rewrite N.
    + now rewrite (bind_ret _ _ _ _ _ C).
  - rewrite (try_raised _ _ w1 (HTTPStatusError r1) w1').
    + cbv beta iota. now rewrite N.
    + now rewrite (bind_ret _ _ _ _ _ C).
Qed.

(** The first call is answered 401 and the forced refresh fails: the
    exception of [get_auth_token] leaves the handler. *)
Lemma dispatch_refresh_fails endpoint method params json_data granted
    w w1 q1 r1 w1' e w2 :
  proceeds method granted = true ->
  acquire w = (Ret tt, w1) ->
  request_for endpoint method params json_data w1 = Some q1 ->
  client_call remote q1 w1 = (Ret r1, w1') ->
  status_code r1 = 401 ->
  refresh rt cfg remote w1' = (Raised e, w2) ->
  dispatch endpoint method params json_data granted w = (Raised e, w2).
Proof.
  intros P A Q C S R.
  pose proof (conclude_status_error r1 w1' (unauthorized_not_success r1 S)) as K.
  apply Z.eqb_eq in S.
  past_gate P A Q.
  - rewrite (try_raised _ _ w1 (HTTPStatusError r1) w1').
    + cbv beta iota. rewrite S. now rewrite (bind_raised _ _ _ _ _ R).
    + now rewrite (bind_ret _ _ _ _ _ C).
  - rewrite (try_raised _ _ w1 (HTTPStatusError r1) w1').
    + cbv beta iota. rewrite S. now rewrite (bind_raised _ _ _ _ _ R).
    + now rewrite (bind_ret _ _ _ _ _ C).
Qed.

(** The first call is answered 401, the refresh succeeds and the call is
    made again: whatever the second call and the three statements after it
    do is what the dispatcher does, a raised exception included. *)
Lemma dispatch_retry endpoint method params json_data granted
    w w1 q1 r1 w1' w2 q2 :
  proceeds method granted = true ->
  acquire w = (Ret tt, w1) ->
  request_for endpoint method params json_data w1 = Some q1 ->
  client_call remote q1 w1 = (Ret r1, w1') ->
  status_code r1 = 401 ->
  refresh rt cfg remote w1' = (Ret tt, w2) ->
  request_for endpoint method params json_data w2 = Some q2 ->
  dispatch endpoint method params json_data granted w
  = (response <- client_call remote q2 ;; conclude response) w2.
Proof.
  intros P A Q C S R Q2.
  pose proof (conclude_status_error r1 w1' (unauthorized_not_success r1 S)) as K.
  apply Z.eqb_eq in S.
  past_gate P A Q.
  - rewrite (try_raised _ _ w1 (HTTPStatusError r1) w1').
    + cbv beta iota. rewrite S. rewrite (bind_ret _ _ _ _ _ R).
      second_request Q2. reflexivity.
    + now rewrite (bind_ret _ _ _ _ _ C).
  - rewrite (try_raised _ _ w1 (HTTPStatusError r1) w1').
    + cbv beta iota. rewrite S. rewrite (bind_ret _ _ _ _ _ R).
      second_request Q2. reflexivity.
    + now rewrite (bind_ret _ _ _ _ _ C).
Qed.

(** *** Every run, case by case *)

Lemma client_call_cases q w :
  (exists r, client_call remote q w = (Ret r, sent w q))
  \/ (exists detail,
        client_call remote q w = (Raised (TransportError detail), sent w q)).
Proof.
  unfold client_call, sent. destruct (send_reply remote _ _); eauto.
Qed.

Lemma conclude_cases r w :
  conclude r w = (Ret Success, w)
  \/ (exists value, conclude r w = (Ret (Payload value), w))
  \/ (exists detail, conclude r w = (Raised (JSONDecodeError detail), w))
  \/ (is_success r = false /\ conclude r w = (Raised (HTTPStatusError r), w)).
Proof.
  destruct (is_success r) eqn:S.
  - destruct (Z.eq_dec (status_code r) 204) as [E|E].
    + left. now apply conclude_204.
    + destruct (body r) as [value|detail] eqn:B.
      * right; left. exists value. now apply conclude_json.
      * right; right; left. exists detail. now apply conclude_not_json.
  - right; right; right. split; [reflexivity|]. now apply conclude_status_error.
Qed.

Lemma request_for_any_token endpoint method params json_data w1 q1 w2 :
  request_for endpoint method params json_data w1 = Some q1 ->
  exists q2, request_for endpoint method params json_data w2 = Some q2.
Proof.
  unfold issued_request, mutation_request.
  destruct (method =? "GET")%string; [eauto|].
  destruct (method =? "POST")%string; [eauto|].
  destruct (method =? "PUT")%string; [eauto|].
  destruct (method =? "DELETE")%string; [eauto|discriminate].
Qed.

(** The retried call: it returns the success marker or the payload, or it
    raises; the world it leaves is the one with the call made. *)
Lemma second_call_cases q2 w2 :
  let second := (response <- client_call remote q2 ;; conclude response) w2 in
  world second = sent w2 q2
  /\ (forall o, result second = Ret o -> is_permission o = false).
Proof.
  destruct (client_call_cases q2 w2) as [[r C]|[d C]]; simpl.
  - rewrite (bind_ret _ _ _ _ _ C).
    destruct (conclude_cases r (sent w2 q2))
      as [K|[[v K]|[[d K]|[_ K]]]]; rewrite K; simpl; split; trivial;
      intros o [= <-]; reflexivity.
  - rewrite (bind_raised _ _ _ _ _ C). simpl. split; [reflexivity|discriminate].
Qed.

(** Every run of the dispatcher is one of these: turned back at the gate;
    stopped by a failed lazy login; stopped by a method without a client
    call; settled by the first call (a value, or an error record); or, on
    a 401, stopped by a failed refresh or handed to the second call. *)
Lemma dispatch_cases endpoint method params json_data granted w :
  let run := dispatch endpoint method params json_data granted w in
  (proceeds method granted = false
   /\ run = (Ret (Permission
                    (permission_request rt endpoint method params json_data)), w))
  \/ (proceeds method granted = true
      /\ exists e w1, acquire w = (Raised e, w1) /\ run = (Raised e, w1))
  \/ (proceeds method granted = true
      /\ exists w1, acquire w = (Ret tt, w1)
      /\ ((request_for endpoint method params json_data w1 = None
           /\ run = (Ret (Unsupported ("Unsupported HTTP method: " ++ method)), w1))
          \/ exists q1,
               request_for endpoint method params json_data w1 = Some q1
               /\ ((exists o, is_permission o = false
                              /\ run = (Ret o, sent w1 q1))
                   \/ (exists r1,
                         client_call remote q1 w1 = (Ret r1, sent w1 q1)
                         /\ status_code r1 = 401
                         /\ ((exists e w2,
                                refresh rt cfg remote (sent w1 q1) = (Raised e, w2)
                                /\ run = (Raised e, w2))
                             \/ (exists w2 q2,
                                   refresh rt cfg remote (sent w1 q1) = (Ret tt, w2)
                                   /\ request_for endpoint method params json_data w2
                                      = Some q2
                                   /\ run = (response <- client_call remote q2 ;;
                                             conclude response) w2)))))).
Proof.
  intros run. subst run.
  destruct (proceeds method granted) eqn:P.
  2: { left. split; [reflexivity|].
       unfold proceeds in P. apply orb_false_iff in P as [G ->].
       apply gate_closed. intros ->. discriminate. }
  right.
  destruct (acquire w) as [[[]|e] w1] eqn:A.
  2: { left. split; [reflexivity|]. exists e, w1. split; [reflexivity|].
       now apply dispatch_acquire_fails. }
  right. split; [reflexivity|]. exists w1. split; [reflexivity|].
  destruct (request_for endpoint method params json_data w1) as [q1|] eqn:Q.
  2: { left. split; [reflexivity|]. now apply dispatch_unsupported. }
  right. exists q1. split; [reflexivity|].
  destruct (client_call_cases q1 w1) as [[r1 C]|[d C]].
  2: { left. eexists. split; [|eapply dispatch_first_fails; eassumption].
       reflexivity. }
  destruct (conclude_cases r1 (sent w1 q1)) as [K|[[v K]|[[d K]|[S K]]]].
  - left. eexists. split; [|eapply dispatch_first_returns; eassumption].
    reflexivity.
  - left. eexists. split; [|eapply dispatch_first_returns; eassumption].
    reflexivity.
  - left. eexists. split; [|eapply dispatch_first_not_json; eassumption].
    reflexivity.
  - destruct (Z.eq_dec (status_code r1) 401) as [E|E].
    2: { left. eexists. split; [|eapply dispatch_first_status; eassumption].
         reflexivity. }
    right. exists r1. split; [assumption|]. split; [assumption|].
    destruct (refresh rt cfg remote (sent w1 q1)) as [[[]|e] w2] eqn:R.
    + right.
      destruct (request_for_any_token endpoint method params json_data w1 q1 w2 Q)
        as [q2 Q2].
      exists w2, q2. split; [reflexivity|]. split; [assumption|].
      eapply dispatch_retry; eassumption.
    + left. exists e, w2. split; [reflexivity|].
      eapply dispatch_refresh_fails; eassumption.
Qed.

(** C4. A GET request never meets the permission gate: the run is the same
    whatever the permission flag, what it returns is never a permission
    request, and the first thing it does is the credential step (the login
    exchange when no token is held) followed by the GET call on the
    transport. *)
Theorem C4_get_bypasses_the_gate endpoint params json_data granted w :
  dispatch endpoint "GET" params json_data granted w
  = dispatch endpoint "GET" params json_data (negb granted) w
  /\ (forall o,
        result (dispatch endpoint "GET" params json_data granted w) = Ret o ->
        is_permission o = false)
  /\ (exists newer,
        log (world (dispatch endpoint "GET" params json_data granted w))
        = (newer
           ++ [if truthy (auth_token w)
               then Send (get_request rt cfg endpoint params
                            ("Bearer " ++ fstr rt (auth_token w)))
               else Login (login rt cfg)]
           ++ log w)%list)
  /\ (forall w1, acquire w = (Ret tt, w1) ->
      exists newer,
        log (world (dispatch endpoint "GET" params json_data granted w))
        = (newer
           ++ [Send (get_request rt cfg endpoint params
                       ("Bearer " ++ fstr rt (auth_token w1)))]
           ++ log w1)%list).
Proof.
  split; [reflexivity|].
  pose proof (dispatch_cases endpoint "GET" params json_data granted w) as D.
  cbv zeta in D. change (proceeds "GET" granted) with true in D.
  destruct D as [[D _]|[[_ (e & w1 & A & D)]|[_ (w1 & A & D)]]];
    [discriminate| |].
  - (* the lazy login fails *)
    rewrite D. simpl.
    destruct (acquire_raised w e w1 A) as (T & -> & _). rewrite T.
    split; [discriminate|]. split; [now exists []|].
    intros w1' A'. rewrite A in A'. discriminate.
  - destruct D as [[Q _]|(q1 & Q & D)];
      [unfold issued_request in Q; simpl in Q; discriminate|].
    unfold issued_request in Q; simpl in Q. injection Q as <-.
    set (q1 := get_request rt cfg endpoint params
                 ("Bearer " ++ fstr rt (auth_token w1))) in *.
    assert (Hlog : exists newer,
              log (world (dispatch endpoint "GET" params json_data granted w))
              = (newer ++ [Send q1] ++ log w1)%list
              /\ forall o,
                   result (dispatch endpoint "GET" params json_data granted w)
                   = Ret o -> is_permission o = false).
    { destruct D as [(o & Ho & D)|(r1 & C & S & [(e & w2 & R & D)|(w2 & q2 & R & Q2 & D)])];
        rewrite D; simpl.
      - exists []. split; [reflexivity|]. now intros o' [= <-].
      - destruct (refresh_raised _ _ _ R) as (-> & _). simpl.
        exists [Login (login rt cfg)]. split; [reflexivity|discriminate].
      - destruct (second_call_cases q2 w2) as [W O]. cbv zeta in W, O.
        rewrite W. simpl. rewrite (refresh_ret _ _ R). simpl.
        exists [Send q2; Login (login rt cfg)]. split; [reflexivity|exact O]. }
    destruct Hlog as (newer & L & O).
    split; [exact O|]. split.
    + destruct (acquire_ret w w1 A) as [[T ->]|[T L']]; rewrite T.
      * exists newer. exact L.
      * exists (newer ++ [Send q1])%list. rewrite L, L'.
        now rewrite <- !app_assoc.
    + intros w1' A'. rewrite A in A'. injection A' as <-.
      exists newer. exact L.
Qed.


(** *** The 401 path *)

Lemma conclude_success r w o :
  is_success r = true -> success_outcome r = Some o ->
  conclude r w = (Ret o, w).
Proof.
  unfold success_outcome. intros S O.
  destruct (status_code r =? 204) eqn:E.
  - injection O as <-. apply Z.eqb_eq in E. now apply conclude_204.
  - apply Z.eqb_neq in E. destruct (body r) as [v|d] eqn:B; [|discriminate].
    injection O as <-. now apply conclude_json.
Qed.

(** A second 401 is raised by the [raise_for_status] of the handler, where
    no [except] clause applies any more: it leaves the dispatcher as an
    exception, after two resource requests and one login between them. *)
Lemma retry_unauthorized_escapes endpoint method params json_data granted
    w w1 q1 r1 w1' w2 q2 r2 w2' :
  proceeds method granted = true ->
  acquire w = (Ret tt, w1) ->
  request_for endpoint method params json_data w1 = Some q1 ->
  client_call remote q1 w1 = (Ret r1, w1') ->
  status_code r1 = 401 ->
  refresh rt cfg remote w1' = (Ret tt, w2) ->
  request_for endpoint method params json_data w2 = Some q2 ->
  client_call remote q2 w2 = (Ret r2, w2') ->
  status_code r2 = 401 ->
  dispatch endpoint method params json_data granted w
  = (Raised (HTTPStatusError r2), w2')
  /\ log w2' = Send q2 :: Login (login rt cfg) :: Send q1 :: log w1
  /\ sends (log w2') = (2 + sends (log w))%nat.
Proof.
  intros P A Q C S R Q2 C2 S2.
  rewrite (dispatch_retry _ _ _ _ _ _ _ _ _ _ _ _ P A Q C S R Q2).
  rewrite (bind_ret _ _ _ _ _ C2).
  rewrite (conclude_status_error r2 w2' (unauthorized_not_success r2 S2)).
  split; [reflexivity|].
  rewrite (client_call_world _ _ _ _ C2). simpl.
  rewrite (refresh_ret _ _ R), (client_call_world _ _ _ _ C). simpl.
  split; [reflexivity|]. now rewrite (acquire_sends _ _ A).
Qed.

(** C5. When the first resource request is answered 401 and the second one
    with a success (a 2xx status, and a body that decodes unless the status
    is 204), the dispatcher returns that success Outcome; between the two
    resource requests it performed exactly one login exchange, the forced
    refresh. *)
Theorem C5_unauthorized_then_success endpoint method params json_data granted
    w w1 q1 r1 w1' w2 q2 r2 w2' o :
  proceeds method granted = true ->
  acquire w = (Ret tt, w1) ->
  request_for endpoint method params json_data w1 = Some q1 ->
  client_call remote q1 w1 = (Ret r1, w1') ->
  status_code r1 = 401 ->
  refresh rt cfg remote w1' = (Ret tt, w2) ->
  request_for endpoint method params json_data w2 = Some q2 ->
  client_call remote q2 w2 = (Ret r2, w2') ->
  is_success r2 = true ->
  success_outcome r2 = Some o ->
  dispatch endpoint method params json_data granted w = (Ret o, w2')
  /\ log w2' = Send q2 :: Login (login rt cfg) :: Send q1 :: log w1
  /\ logins (log w2') = S (logins (log w1))
  /\ sends (log w2') = (2 + sends (log w))%nat.
Proof.
  intros P A Q C S R Q2 C2 S2 O.
  rewrite (dispatch_retry _ _ _ _ _ _ _ _ _ _ _ _ P A Q C S R Q2).
  rewrite (bind_ret _ _ _ _ _ C2).
  rewrite (conclude_success r2 w2' o S2 O).
  split; [reflexivity|].
  rewrite (client_call_world _ _ _ _ C2). simpl.
  rewrite (refresh_ret _ _ R), (client_call_world _ _ _ _ C). simpl.
  repeat split. now rewrite (acquire_sends _ _ A).
Qed.

(** C7. When the transport answers a dispatched request with status 204,
    on the first call or on the call retried after a 401, the dispatcher
    returns the success marker.  The body of the response plays no part:
    the statement holds for a body that does not decode as well. *)
Theorem C7_no_content_is_success_marker endpoint method params json_data granted
    w w1 q1 r1 w1' :
  proceeds method granted = true ->
  acquire w = (Ret tt, w1) ->
  request_for endpoint method params json_data w1 = Some q1 ->
  client_call remote q1 w1 = (Ret r1, w1') ->
  (status_code r1 = 204
   \/ (status_code r1 = 401
       /\ exists w2 q2 r2 w2',
            refresh rt cfg remote w1' = (Ret tt, w2)
            /\ request_for endpoint method params json_data w2 = Some q2
            /\ client_call remote q2 w2 = (Ret r2, w2')
            /\ status_code r2 = 204)) ->
  result (dispatch endpoint method params json_data granted w) = Ret Success.
Proof.
  intros P A Q C [S|(S & w2 & q2 & r2 & w2' & R & Q2 & C2 & S2)].
  - rewrite (dispatch_first_returns _ _ _ _ _ _ _ _ _ _ Success P A Q C);
      [reflexivity|].
    apply conclude_204; [now apply no_content_success | assumption].
  - rewrite (dispatch_retry _ _ _ _ _ _ _ _ _ _ _ _ P A Q C S R Q2).
    rewrite (bind_ret _ _ _ _ _ C2).
    now rewrite (conclude_204 r2 w2' (no_content_success r2 S2) S2).
Qed.

(** *** Which failures are returned and which are raised *)

(** C2, as the code has it.  Once the credential step is over, a run
    whose first resource request is not answered 401 returns an Outcome:
    a method without a client call, a call that fails and a response
    without a 2xx status or with a body that does not decode all give an
    error record.  A failed login exchange is not turned into a record:
    at the lazy acquisition, and at the refresh forced by a 401, the
    [ValueError] of [get_auth_token] leaves the dispatcher. *)
Theorem C2_failures_returned_login_failure_raised
    endpoint method params json_data granted w :
  (forall w1,
      acquire w = (Ret tt, w1) ->
      (forall q1 r1 w1',
          request_for endpoint method params json_data w1 = Some q1 ->
          client_call remote q1 w1 = (Ret r1, w1') ->
          status_code r1 <> 401) ->
      exists o w',
        dispatch endpoint method params json_data granted w = (Ret o, w')
        /\ (proceeds method granted = true ->
            request_for endpoint method params json_data w1 = None ->
            is_error o = true)
        /\ (forall q1 r1 w1',
               proceeds method granted = true ->
               request_for endpoint method params json_data w1 = Some q1 ->
               client_call remote q1 w1 = (Ret r1, w1') ->
               is_success r1 = false \/ success_outcome r1 = None ->
               is_error o = true)
        /\ (forall q1 e w1',
               proceeds method granted = true ->
               request_for endpoint method params json_data w1 = Some q1 ->
               client_call remote q1 w1 = (Raised e, w1') ->
               is_error o = true))
  /\ (forall e w1,
         proceeds method granted = true ->
         acquire w = (Raised e, w1) ->
         dispatch endpoint method params json_data granted w = (Raised e, w1)
         /\ exists msg, e = ValueError ("Error getting token: " ++ msg))
  /\ (forall w1 q1 r1 w1' e w2,
         proceeds method granted = true ->
         acquire w = (Ret tt, w1) ->
         request_for endpoint method params json_data w1 = Some q1 ->
         client_call remote q1 w1 = (Ret r1, w1') ->
         status_code r1 = 401 ->
         refresh rt cfg remote w1' = (Raised e, w2) ->
         dispatch endpoint method params json_data granted w = (Raised e, w2)
         /\ exists msg, e = ValueError ("Error getting token: " ++ msg)).
Proof.
  split; [|split].
  - intros w1 A N.
    destruct (proceeds method granted) eqn:P.
    2: { pose proof (dispatch_cases endpoint method params json_data granted w) as D.
         cbv zeta in D. rewrite P in D.
         destruct D as [[_ D]|[[D _]|[D _]]]; try discriminate.
         rewrite D. do 2 eexists. split; [reflexivity|].
         repeat split; intros; discriminate. }
    destruct (request_for endpoint method params json_data w1) as [q1|] eqn:Q.
    2: { rewrite (dispatch_unsupported _ _ _ _ _ _ _ P A Q).
         do 2 eexists. split; [reflexivity|].
         repeat split; intros; try reflexivity; discriminate. }
    destruct (client_call_cases q1 w1) as [[r1 C]|[d C]].
    2: { rewrite (dispatch_first_fails _ _ _ _ _ _ _ _ _ _ P A Q C).
         do 2 eexists. split; [reflexivity|]. repeat split; reflexivity. }
    specialize (N q1 r1 _ eq_refl C).
    assert (Hinj : forall q r w', Some q1 = Some q ->
                     client_call remote q w1 = (Ret r, w') -> r = r1).
    { intros q r w' [= <-] C'. rewrite C in C'. now injection C' as <-. }
    destruct (conclude_cases r1 (sent w1 q1)) as [K|[[v K]|[[d K]|[S K]]]].
    + rewrite (dispatch_first_returns _ _ _ _ _ _ _ _ _ _ _ P A Q C K).
      do 2 eexists. split; [reflexivity|].
      split; [discriminate|]. split; [|intros q e w' _ [= <-] C'; congruence].
      intros q r w' _ Hq C' [F|F]; rewrite (Hinj _ _ _ Hq C') in F.
      * pose proof (conclude_status_error r1 (sent w1 q1) F). congruence.
      * unfold conclude, bind, raise_for_status, response_json in K.
        unfold success_outcome in F.
        destruct (is_success r1); simpl in K; [|discriminate].
        destruct (status_code r1 =? 204); [discriminate|].
        destruct (body r1); discriminate.
    + rewrite (dispatch_first_returns _ _ _ _ _ _ _ _ _ _ _ P A Q C K).
      do 2 eexists. split; [reflexivity|].
      split; [discriminate|]. split; [|intros q e w' _ [= <-] C'; congruence].
      intros q r w' _ Hq C' [F|F]; rewrite (Hinj _ _ _ Hq C') in F.
      * pose proof (conclude_status_error r1 (sent w1 q1) F). congruence.
      * unfold conclude, bind, raise_for_status, response_json in K.
        unfold success_outcome in F.
        destruct (is_success r1); simpl in K; [|discriminate].
        destruct (status_code r1 =? 204); [discriminate|].
        destruct (body r1); discriminate.
    + rewrite (dispatch_first_not_json _ _ _ _ _ _ _ _ _ _ _ P A Q C K).
      do 2 eexists. split; [reflexivity|]. repeat split; reflexivity.
    + rewrite (dispatch_first_status _ _ _ _ _ _ _ _ _ _ P A Q C S N).
      do 2 eexists. split; [reflexivity|]. repeat split; reflexivity.
  - intros e w1 P A. split; [now apply dispatch_acquire_fails|].
    now destruct (acquire_raised w e w1 A) as (_ & _ & M).
  - intros w1 q1 r1 w1' e w2 P A Q C S R.
    split; [eapply dispatch_refresh_fails; eassumption|].
    now destruct (refresh_raised _ _ _ R) as (_ & M).
Qed.

(** *** The method is compared as it is written *)

Lemma no_client_call endpoint method params json_data w :
  method <> "GET" -> method <> "POST" -> method <> "PUT" -> method <> "DELETE" ->
  request_for endpoint method params json_data w = None.
Proof.
  intros H1 H2 H3 H4. unfold issued_request, mutation_request.
  now rewrite !eqb_neq_false by assumption.
Qed.

(** C10, as the code has it.  The test is on the exact string "GET".  A
    method that differs from it in any character, without permission, is
    answered with a permission request and nothing is read: the lower-case
    "get" of [get_alarm_comments] is such a method.  With permission, a
    method that is none of "GET", "POST", "PUT", "DELETE" makes no resource
    request, and the credential step comes first: with a token held the
    unsupported-method record is returned and no call is made at all; with
    none held one login exchange is made, and the record is returned if it
    succeeds while its [ValueError] is raised if it fails. *)
Theorem C10_method_is_compared_exactly endpoint method params json_data w :
  method <> "GET" ->
  dispatch endpoint method params json_data false w
  = (Ret (Permission (permission_request rt endpoint method params json_data)), w)
  /\ (forall alarmId pageSize page sortProperty sortOrder,
         exists d,
           get_alarm_comments rt cfg remote alarmId pageSize page
             sortProperty sortOrder w
           = (Ret (Permission d), w)
           /\ PermissionRequest.method d = "get")
  /\ (method <> "POST" -> method <> "PUT" -> method <> "DELETE" ->
      sends (log (world (dispatch endpoint method params json_data true w)))
      = sends (log w)
      /\ (truthy (auth_token w) = true ->
          dispatch endpoint method params json_data true w
          = (Ret (Unsupported ("Unsupported HTTP method: " ++ method)), w))
      /\ (truthy (auth_token w) = false ->
          log (world (dispatch endpoint method params json_data true w))
          = Login (login rt cfg) :: log w
          /\ (forall w1, acquire w = (Ret tt, w1) ->
              dispatch endpoint method params json_data true w
              = (Ret (Unsupported ("Unsupported HTTP method: " ++ method)), w1))
          /\ (forall e w1, acquire w = (Raised e, w1) ->
              dispatch endpoint method params json_data true w = (Raised e, w1)
              /\ exists msg, e = ValueError ("Error getting token: " ++ msg)))).
Proof.
  intros H. split; [now apply gate_closed|]. split.
  { intros. unfold get_alarm_comments. rewrite gate_closed by discriminate.
    eexists. split; reflexivity. }
  intros H2 H3 H4.
  assert (P : proceeds method true = true) by (unfold proceeds; apply orb_true_r).
  assert (Hret : forall w1, acquire w = (Ret tt, w1) ->
            dispatch endpoint method params json_data true w
            = (Ret (Unsupported ("Unsupported HTTP method: " ++ method)), w1)).
  { intros w1 A. apply dispatch_unsupported; try assumption.
    now apply no_client_call. }
  assert (Hraise : forall e w1, acquire w = (Raised e, w1) ->
            dispatch endpoint method params json_data true w = (Raised e, w1)).
  { intros e w1 A. now apply dispatch_acquire_fails. }
  split; [|split].
  - destruct (acquire w) as [[[]|e] w1] eqn:A.
    + rewrite (Hret w1 eq_refl). simpl. now apply acquire_sends.
    + rewrite (Hraise e w1 eq_refl). simpl.
      now destruct (acquire_raised w e w1 A) as (_ & -> & _).
  - intros T. apply Hret. now apply acquire_held.
  - intros T. split; [|split].
    + destruct (acquire w) as [[[]|e] w1] eqn:A.
      * rewrite (Hret w1 eq_refl). simpl.
        destruct (acquire_ret w w1 A) as [[T' _]|[_ L]]; [congruence|exact L].
      * rewrite (Hraise e w1 eq_refl). simpl.
        now destruct (acquire_raised w e w1 A) as (_ & -> & _).
    + exact Hret.
    + intros e w1 A. split; [now apply Hraise|].
      now destruct (acquire_raised w e w1 A) as (_ & _ & M).
Qed.

End Properties.

(** ** Two calls, two platforms *)

(** C9. Without permission, a request with a method other than GET is
    answered with the same permission request every time: whatever token
    is held and whatever calls were made before, on whatever platform and
    configuration, and so also when the call is made twice in a row. *)
Theorem C9_permission_request_is_repeatable
    rt cfg cfg' remote remote' endpoint method params json_data w w' :
  method <> "GET" ->
  (exists d,
     result (make_thingsboard_request rt cfg remote
               endpoint method params json_data false w)
     = Ret (Permission d)
     /\ result (make_thingsboard_request rt cfg' remote'
                  endpoint method params json_data false w')
        = Ret (Permission d))
  /\ result (make_thingsboard_request rt cfg remote
               endpoint method params json_data false
               (world (make_thingsboard_request rt cfg remote
                         endpoint method params json_data false w)))
     = result (make_thingsboard_request rt cfg remote
                 endpoint method params json_data false w).
Proof.
  intros H. rewrite !gate_closed by assumption. simpl.
  split; [eexists; split; reflexivity|].
  reflexivity.
Qed.

(** ** The statements at work on stub platforms *)

(** C1 at an unconfirmed DELETE: the request comes back, nothing is called. *)
Lemma C1_witness :
  "DELETE" <> "GET"
  /\ exists d,
       make_thingsboard_request Stub.runtime Stub.config (Stub.remote [] [])
         "device/abc" "DELETE" (Some [("force", JBool true)]) None false Stub.fresh
       = (Ret (Permission d), Stub.fresh)
       /\ PermissionRequest.method d = "DELETE"
       /\ PermissionRequest.endpoint d = "device/abc"
       /\ PermissionRequest.params d = Some [("force", JBool true)]
       /\ PermissionRequest.json_data d = None.
Proof.
  assert (H : "DELETE" <> "GET") by discriminate.
  split; [exact H|].
  destruct (C1_unconfirmed_mutation_echoes_request Stub.runtime Stub.config
              (Stub.remote [] []) "device/abc" "DELETE"
              (Some [("force", JBool true)]) None Stub.fresh H)
    as (d & E & _ & Hm & He & Hp & Hj & _).
  exists d. repeat split; assumption.
Defined.

(** C8 at an unconfirmed PUT with a body. *)
Lemma C8_witness :
  "PUT" <> "GET"
  /\ exists d,
       result (make_thingsboard_request Stub.runtime Stub.config (Stub.remote [] [])
                 "device/abc" "PUT" None (Some [("label", JStr "x")]) false
                 (Stub.holding "t0"))
       = Ret (Permission d)
       /\ contains (PermissionRequest.message d) "update existing data".
Proof.
  assert (H : "PUT" <> "GET") by discriminate.
  split; [exact H|].
  destruct (C8_message_names_the_effect Stub.runtime Stub.config
              (Stub.remote [] []) "device/abc" "PUT" None
              (Some [("label", JStr "x")]) (Stub.holding "t0") H)
    as [(d & E & _ & _ & Hput & _) _].
  exists d. split; [exact E|]. now apply Hput.
Defined.

(** C9 at an unconfirmed POST, on two platforms and with two tokens. *)
Lemma C9_witness :
  "POST" <> "GET"
  /\ exists d,
       result (make_thingsboard_request Stub.runtime Stub.config
                 (Stub.remote [] []) "alarm/a1/ack" "POST" None None false Stub.fresh)
       = Ret (Permission d)
       /\ result (make_thingsboard_request Stub.runtime
                    (mkConfig None None None)
                    (Stub.remote [Stub.token "t1"] [Stub.status 500])
                    "alarm/a1/ack" "POST" None None false (Stub.holding "t0"))
          = Ret (Permission d).
Proof.
  assert (H : "POST" <> "GET") by discriminate.
  split; [exact H|].
  exact (proj1 (C9_permission_request_is_repeatable Stub.runtime Stub.config
                  (mkConfig None None None) (Stub.remote [] [])
                  (Stub.remote [Stub.token "t1"] [Stub.status 500])
                  "alarm/a1/ack" "POST" None None Stub.fresh (Stub.holding "t0") H)).
Defined.

(** C5 at a GET with a stale token: 401, one login, then 200 with a body. *)
Lemma C5_witness :
  let remote :=
    Stub.remote [Stub.token "t1"]
      [Stub.status 401; Stub.ok (JObj [("id", JStr "abc")])] in
  let run :=
    make_thingsboard_request Stub.runtime Stub.config remote
      "device/abc" "GET" None None false (Stub.holding "t0") in
  result run = Ret (Payload (JObj [("id", JStr "abc")]))
  /\ auth_token (world run) = JStr "t1"
  /\ logins (log (world run)) = 1%nat
  /\ sends (log (world run)) = 2%nat.
Proof.
  cbv zeta.
  edestruct (C5_unauthorized_then_success Stub.runtime Stub.config
               (Stub.remote [Stub.token "t1"]
                  [Stub.status 401; Stub.ok (JObj [("id", JStr "abc")])])
               "device/abc" "GET" None None false (Stub.holding "t0"))
    as (E & L & Hl & Hs);
    [ reflexivity | reflexivity | reflexivity | reflexivity | reflexivity
    | reflexivity | reflexivity | reflexivity | reflexivity | reflexivity | ].
  rewrite E. simpl. repeat split.
Defined.

(** C7 at a confirmed DELETE answered 204 with a body that is no JSON, and
    at one answered 401 first. *)
Lemma C7_witness :
  result (make_thingsboard_request Stub.runtime Stub.config
            (Stub.remote [] [Stub.status 204])
            "device/abc" "DELETE" None None true (Stub.holding "t0"))
  = Ret Success
  /\ result (make_thingsboard_request Stub.runtime Stub.config
               (Stub.remote [Stub.token "t1"] [Stub.status 401; Stub.status 204])
               "device/abc" "DELETE" None None true (Stub.holding "t0"))
     = Ret Success.
Proof.
  split.
  - eapply (C7_no_content_is_success_marker Stub.runtime Stub.config
              (Stub.remote [] [Stub.status 204])
              "device/abc" "DELETE" None None true (Stub.holding "t0"));
      [ reflexivity | reflexivity | reflexivity | reflexivity | left; reflexivity ].
  - eapply (C7_no_content_is_success_marker Stub.runtime Stub.config
              (Stub.remote [Stub.token "t1"] [Stub.status 401; Stub.status 204])
              "device/abc" "DELETE" None None true (Stub.holding "t0"));
      [ reflexivity | reflexivity | reflexivity | reflexivity | right ].
    split; [reflexivity|]. do 4 eexists.
    split; [reflexivity|]. split; [reflexivity|]. split; reflexivity.
Defined.

(** C3 on the code: a GET of device/abc with a stale token, answered 401,
    then, after the forced login, 401 again.  Two resource requests are
    made and no third; but what comes back is no error record: the second
    [HTTPStatusError] is raised inside the [except] clause and leaves the
    dispatcher as an exception. *)
Theorem C3_second_unauthorized_is_raised :
  let remote :=
    Stub.remote [Stub.token "t1"] [Stub.status 401; Stub.status 401] in
  let run :=
    make_thingsboard_request Stub.runtime Stub.config remote
      "device/abc" "GET" None None false (Stub.holding "t0") in
  result run
  = Raised (HTTPStatusError (mkResponse 401 (NotJson "Expecting value")))
  /\ sends (log (world run)) = 2%nat
  /\ logins (log (world run)) = 1%nat.
Proof. cbv zeta. repeat split. Qed.

(** C2 fails on the code: with no token held and a platform that refuses
    the connection, a GET does not return an error record; the
    [ValueError] of the login exchange reaches the caller. *)
Lemma C2_counterexample :
  result (make_thingsboard_request Stub.runtime Stub.config (Stub.remote [] [])
            "device/abc" "GET" None None false Stub.fresh)
  = Raised (ValueError "Error getting token: connection refused").
Proof. reflexivity. Qed.

(** C2 as amended, on three runs: a 500 is returned as an error record; a
    refused login at the lazy acquisition is raised; a login answered 403 at
    the forced refresh is raised. *)
Lemma C2_witness :
  (exists o w',
      make_thingsboard_request Stub.runtime Stub.config
        (Stub.remote [] [Stub.status 500])
        "device/abc" "GET" None None false (Stub.holding "t0")
      = (Ret o, w')
      /\ is_error o = true)
  /\ (exists msg,
         result (make_thingsboard_request Stub.runtime Stub.config
                   (Stub.remote [] [])
                   "device/abc" "DELETE" None None true Stub.fresh)
         = Raised (ValueError ("Error getting token: " ++ msg)))
  /\ (exists msg,
         result (make_thingsboard_request Stub.runtime Stub.config
                   (Stub.remote [Stub.status 403] [Stub.status 401])
                   "device/abc" "GET" None None false (Stub.holding "t0"))
         = Raised (ValueError ("Error getting token: " ++ msg))).
Proof.
  split; [|split].
  - destruct (C2_failures_returned_login_failure_raised Stub.runtime Stub.config
                (Stub.remote [] [Stub.status 500])
                "device/abc" "GET" None None false (Stub.holding "t0"))
      as [Hret _].
    destruct (Hret (Stub.holding "t0") eq_refl) as (o & w' & E & _ & Herr & _).
    + intros q1 r1 w1' [= <-] [= <- _]. discriminate.
    + exists o, w'. split; [exact E|].
      eapply Herr; [reflexivity | reflexivity | reflexivity | left; reflexivity].
  - destruct (C2_failures_returned_login_failure_raised Stub.runtime Stub.config
                (Stub.remote [] [])
                "device/abc" "DELETE" None None true Stub.fresh)
      as (_ & Hlazy & _).
    edestruct Hlazy as (E & msg & M); [reflexivity | reflexivity |].
    exists msg. rewrite E. exact (f_equal (@Raised Outcome) M).
  - destruct (C2_failures_returned_login_failure_raised Stub.runtime Stub.config
                (Stub.remote [Stub.status 403] [Stub.status 401])
                "device/abc" "GET" None None false (Stub.holding "t0"))
      as (_ & _ & Hforced).
    edestruct Hforced as (E & msg & M);
      [ reflexivity | reflexivity | reflexivity | reflexivity | reflexivity
      | reflexivity | ].
    exists msg. rewrite E. exact (f_equal (@Raised Outcome) M).
Defined.

(** C10 fails on the code where it says that no network call is made: with
    permission and no token held, the lower-case "get" first makes the login
    exchange; and when that exchange fails, the unsupported-method record is
    not returned at all. *)
Lemma C10_counterexample :
  log (world (make_thingsboard_request Stub.runtime Stub.config
                (Stub.remote [Stub.token "t1"] [])
                "alarm/a1/comment" "get" (Some []) None true Stub.fresh))
  = [Login (login Stub.runtime Stub.config)]
  /\ result (make_thingsboard_request Stub.runtime Stub.config
               (Stub.remote [] [])
               "alarm/a1/comment" "get" (Some []) None true Stub.fresh)
     = Raised (ValueError "Error getting token: connection refused").
Proof. split; reflexivity. Qed.

(** C10 as amended, at the lower-case "get": a permission request without
    permission; with permission and a token held, the unsupported-method
    record and an empty log. *)
Lemma C10_witness :
  "get" <> "GET"
  /\ make_thingsboard_request Stub.runtime Stub.config (Stub.remote [] [])
       "alarm/a1/comment" "get" (Some []) None false Stub.fresh
     = (Ret (Permission
               (permission_request Stub.runtime "alarm/a1/comment" "get"
                  (Some []) None)), Stub.fresh)
  /\ make_thingsboard_request Stub.runtime Stub.config (Stub.remote [] [])
       "alarm/a1/comment" "get" (Some []) None true (Stub.holding "t0")
     = (Ret (Unsupported "Unsupported HTTP method: get"), Stub.holding "t0").
Proof.
  assert (H : "get" <> "GET") by discriminate.
  split; [exact H|]. split.
  - exact (proj1 (C10_method_is_compared_exactly Stub.runtime Stub.config
                    (Stub.remote [] []) "alarm/a1/comment" "get" (Some []) None
                    Stub.fresh H)).
  - destruct (C10_method_is_compared_exactly Stub.runtime Stub.config
                (Stub.remote [] []) "alarm/a1/comment" "get" (Some []) None
                (Stub.holding "t0") H) as (_ & _ & Hgranted).
    destruct Hgranted as (_ & Hheld & _); try discriminate.
    now apply Hheld.
Defined.

(** ** More on the login exchange and the dispatcher *)

Section Exchange.

Variable rt : Runtime.
Variable cfg : Config.
Variable remote : Remote.

Abbreviation dispatch := (make_thingsboard_request rt cfg remote).
Abbreviation acquire := (acquire_if_missing rt cfg remote).
Abbreviation request_for := (issued_request rt cfg).

(** X1. When the platform answers the login exchange with a 2xx status and
    a JSON object that has a "token" entry, [get_auth_token] returns the
    value of that entry; it made one login call, with the user name and
    password as the JSON body, and did not touch the global token. *)
Theorem get_auth_token_returns_the_token_entry u p w r fields tok :
  login_reply remote (logins (log w)) (login_request rt cfg u p) = Responded r ->
  is_success r = true ->
  body r = Json (JObj fields) ->
  dict_get "token" fields = Some tok ->
  get_auth_token rt cfg remote u p w
  = (Ret tok, mkWorld (auth_token w) (Login (login_request rt cfg u p) :: log w))
  /\ json_body (login_request rt cfg u p)
     = Some (JObj [("username", of_optional_str u);
                   ("password", of_optional_str p)])
  /\ authorization (login_request rt cfg u p) = None.
Proof.
  intros L S B T.
  unfold get_auth_token, try_except, bind, login_call, raise_for_status,
    response_json, subscript, ret.
  rewrite L. simpl. rewrite S. simpl. rewrite B. simpl. rewrite T.
  repeat split.
Qed.

(** X2. Every way the login exchange can go wrong ends in the same kind of
    exception, a [ValueError] whose text is "Error getting token: "
    followed by the text of the cause: a failed connection, a status that is
    not 2xx, a body that is not JSON, a JSON object without a "token" entry
    (the cause then reads 'token'), a JSON value that is not an object.  The
    global token is left as it was. *)
Theorem get_auth_token_failures u p w :
  let q := login_request rt cfg u p in
  let w' := mkWorld (auth_token w) (Login q :: log w) in
  let failed cause :=
    get_auth_token rt cfg remote u p w
    = (Raised (ValueError ("Error getting token: " ++ cause)), w') in
  (forall detail,
      login_reply remote (logins (log w)) q = Failed detail -> failed detail)
  /\ (forall r,
         login_reply remote (logins (log w)) q = Responded r ->
         (is_success r = false -> failed (status_error_text rt r))
         /\ (forall detail,
                is_success r = true -> body r = NotJson detail -> failed detail)
         /\ (forall fields,
                is_success r = true -> body r = Json (JObj fields) ->
                dict_get "token" fields = None -> failed "'token'")
         /\ (forall value,
                is_success r = true -> body r = Json value ->
                (forall fields, value <> JObj fields) ->
                failed (subscript_error_text rt value))).
Proof.
  cbv zeta.
  unfold get_auth_token, try_except, bind, login_call, raise_for_status,
    response_json, subscript, ret, raise.
  split.
  - intros detail L. now rewrite L.
  - intros r L. rewrite L. simpl. split; [|split; [|split]].
    + intros S. now rewrite S.
    + intros detail S B. rewrite S. simpl. now rewrite B.
    + intros fields S B T. rewrite S. simpl. rewrite B. simpl. now rewrite T.
    + intros value S B N. rewrite S. simpl. rewrite B. simpl.
      destruct value; try reflexivity. now destruct (N fields).
Qed.

Lemma client_call_reply q w r :
  send_reply remote (sends (log w)) q = Responded r ->
  client_call remote q w = (Ret r, sent w q).
Proof. intros H. unfold client_call, sent. now rewrite H. Qed.

Lemma client_call_failed q w detail :
  send_reply remote (sends (log w)) q = Failed detail ->
  client_call remote q w = (Raised (TransportError detail), sent w q).
Proof. intros H. unfold client_call, sent. now rewrite H. Qed.

Lemma client_call_ret_reply q w r w' :
  client_call remote q w = (Ret r, w') ->
  send_reply remote (sends (log w)) q = Responded r.
Proof.
  unfold client_call. destruct (send_reply remote _ _); now intros [= <-].
Qed.

(** What every request of a run looks like: it goes to the endpoint
    under the base URL, carries the query parameters as given and the token
    of the moment as a Bearer authorization. *)
Lemma request_shape endpoint method query json_data w q :
  request_for endpoint method query json_data w = Some q ->
  url q = api_url rt cfg endpoint
  /\ params q = query
  /\ authorization q = Some ("Bearer " ++ fstr rt (auth_token w)).
Proof.
  unfold issued_request, get_request, mutation_request.
  destruct (method =? "GET")%string; [now intros [= <-]|].
  destruct (method =? "POST")%string; [now intros [= <-]|].
  destruct (method =? "PUT")%string; [now intros [= <-]|].
  destruct (method =? "DELETE")%string; [now intros [= <-]|discriminate].
Qed.

(** A run in which no 401 is met ends where the credential step left the
    world, or one resource request later. *)
Lemma settled_by_first_call endpoint method query json_data granted w w1 :
  proceeds method granted = true ->
  acquire w = (Ret tt, w1) ->
  (forall q1 r1,
      request_for endpoint method query json_data w1 = Some q1 ->
      send_reply remote (sends (log w1)) q1 = Responded r1 ->
      status_code r1 <> 401) ->
  exists o,
    (request_for endpoint method query json_data w1 = None
     /\ dispatch endpoint method query json_data granted w = (Ret o, w1))
    \/ (exists q1,
          request_for endpoint method query json_data w1 = Some q1
          /\ dispatch endpoint method query json_data granted w
             = (Ret o, sent w1 q1)).
Proof.
  intros P A N.
  pose proof (dispatch_cases rt cfg remote endpoint method query json_data granted w)
    as D.
  cbv zeta in D. rewrite P in D.
  destruct D as [[D _]|[[_ (e & w1' & A' & _)]|[_ (w1' & A' & D)]]];
    [discriminate | congruence |].
  rewrite A in A'. injection A' as <-.
  destruct D as [[Q D]|(q1 & Q & [(o & _ & D)|(r1 & C & S & _)])].
  - eexists. left. split; eassumption.
  - exists o. right. exists q1. now split.
  - destruct (N q1 r1 Q (client_call_ret_reply _ _ _ _ C) S).
Qed.

(** X3. A token that is held is reused: as long as the platform does not
    answer 401, a run makes no login exchange and leaves the global token
    as it is, and it returns an Outcome. *)
Theorem held_token_is_reused endpoint method query json_data granted w :
  truthy (auth_token w) = true ->
  (forall q1 r1,
      request_for endpoint method query json_data w = Some q1 ->
      send_reply remote (sends (log w)) q1 = Responded r1 ->
      status_code r1 <> 401) ->
  auth_token (world (dispatch endpoint method query json_data granted w))
  = auth_token w
  /\ logins (log (world (dispatch endpoint method query json_data granted w)))
     = logins (log w)
  /\ exists o,
       result (dispatch endpoint method query json_data granted w) = Ret o.
Proof.
  intros T N.
  destruct (proceeds method granted) eqn:P.
  - destruct (settled_by_first_call endpoint method query json_data granted w w
                P (acquire_held rt cfg remote w T) N)
      as (o & [[_ D]|(q1 & _ & D)]); rewrite D; simpl; eauto.
  - unfold proceeds in P. apply orb_false_iff in P as [G ->].
    rewrite gate_closed by (intros ->; discriminate). simpl. eauto.
Qed.

(** X4. The first use acquires the token: with no token held, a run that
    goes past the gate logs in once, stores what [get_auth_token] returned
    in the global, and sends its request with that token; unless the
    platform answers 401 no second login follows. *)
Theorem first_use_logs_in_once endpoint method query json_data granted w tok w0 :
  proceeds method granted = true ->
  truthy (auth_token w) = false ->
  get_auth_token rt cfg remote (THINGSBOARD_USERNAME cfg)
    (THINGSBOARD_PASSWORD cfg) w = (Ret tok, w0) ->
  (forall q1 r1,
      request_for endpoint method query json_data (mkWorld tok (log w0)) = Some q1 ->
      send_reply remote (sends (log w)) q1 = Responded r1 ->
      status_code r1 <> 401) ->
  auth_token (world (dispatch endpoint method query json_data granted w)) = tok
  /\ logins (log (world (dispatch endpoint method query json_data granted w)))
     = S (logins (log w))
  /\ (forall q1,
         request_for endpoint method query json_data (mkWorld tok (log w0)) = Some q1 ->
         authorization q1 = Some ("Bearer " ++ fstr rt tok)
         /\ log (world (dispatch endpoint method query json_data granted w))
            = Send q1 :: Login (login rt cfg) :: log w).
Proof.
  intros P T G N.
  assert (A : acquire w = (Ret tt, mkWorld tok (log w0))).
  { rewrite (acquire_missing rt cfg remote w T). unfold refresh.
    now rewrite (bind_ret _ _ _ _ _ G). }
  assert (L : log w0 = Login (login rt cfg) :: log w).
  { pose proof (get_auth_token_world rt cfg remote (THINGSBOARD_USERNAME cfg)
                  (THINGSBOARD_PASSWORD cfg) w) as W.
    rewrite G in W. simpl in W. now rewrite W. }
  assert (N' : forall q1 r1,
             request_for endpoint method query json_data (mkWorld tok (log w0))
             = Some q1 ->
             send_reply remote (sends (log (mkWorld tok (log w0)))) q1
             = Responded r1 ->
             status_code r1 <> 401).
  { intros q1 r1 Q R. apply (N q1 r1 Q). simpl in R. now rewrite L in R. }
  destruct (settled_by_first_call endpoint method query json_data granted w _ P A N')
    as (o & [[Q D]|(q1 & Q & D)]); rewrite D; simpl; rewrite L; simpl;
    (split; [reflexivity|]); (split; [reflexivity|]); intros q Q'.
  - congruence.
  - split; [|congruence].
    now destruct (request_shape _ _ _ _ _ _ Q') as (_ & _ & ?).
Qed.

(** X5. A failure of the first call that is not a 401 is final: a refused
    connection, a status outside 2xx other than 401, or a 2xx body that is
    no JSON gives the record "Unable to <method in lower case> data from
    ThingsBoard" with the text of the cause as details.  The request is not
    sent again and the token is not refreshed. *)
Theorem failure_is_not_retried endpoint method query json_data granted
    w w1 q1 cause :
  proceeds method granted = true ->
  acquire w = (Ret tt, w1) ->
  request_for endpoint method query json_data w1 = Some q1 ->
  ((exists detail,
      send_reply remote (sends (log w1)) q1 = Failed detail
      /\ cause = TransportError detail)
   \/ (exists r1,
         send_reply remote (sends (log w1)) q1 = Responded r1
         /\ ((is_success r1 = false /\ status_code r1 <> 401
              /\ cause = HTTPStatusError r1)
             \/ (exists detail,
                   is_success r1 = true /\ status_code r1 <> 204
                   /\ body r1 = NotJson detail
                   /\ cause = JSONDecodeError detail)))) ->
  dispatch endpoint method query json_data granted w
  = (Ret (Failure ("Unable to " ++ lowered rt method ++ " data from ThingsBoard")
            (exn_str rt cause)),
     mkWorld (auth_token w1) (Send q1 :: log w1)).
Proof.
  intros P A Q [(d & R & ->)|(r1 & R & [(S & N & ->)|(d & S & N & B & ->)])].
  - apply (dispatch_first_fails rt cfg remote _ _ _ _ _ _ _ _ _ _ P A Q).
    now apply client_call_failed.
  - apply (dispatch_first_status rt cfg remote _ _ _ _ _ _ _ _ _ _ P A Q
             (client_call_reply _ _ _ R) S N).
  - apply (dispatch_first_not_json rt cfg remote _ _ _ _ _ _ _ _ _ _ _ P A Q
             (client_call_reply _ _ _ R)).
    now apply conclude_not_json.
Qed.

(** X6. After a 401 the request is sent again as it was, except that it
    carries the token the login exchange has just returned; that token is
    the global one from then on, whatever the second answer is. *)
Theorem retry_carries_the_new_token endpoint method query json_data granted
    w w1 q1 r1 tok w0 :
  proceeds method granted = true ->
  acquire w = (Ret tt, w1) ->
  request_for endpoint method query json_data w1 = Some q1 ->
  send_reply remote (sends (log w1)) q1 = Responded r1 ->
  status_code r1 = 401 ->
  get_auth_token rt cfg remote (THINGSBOARD_USERNAME cfg)
    (THINGSBOARD_PASSWORD cfg) (sent w1 q1) = (Ret tok, w0) ->
  exists q2,
    log (world (dispatch endpoint method query json_data granted w))
    = Send q2 :: Login (login rt cfg) :: Send q1 :: log w1
    /\ auth_token (world (dispatch endpoint method query json_data granted w)) = tok
    /\ authorization q2 = Some ("Bearer " ++ fstr rt tok)
    /\ verb q2 = verb q1 /\ url q2 = url q1
    /\ params q2 = params q1 /\ json_body q2 = json_body q1.
Proof.
  intros P A Q R S G.
  assert (F : refresh rt cfg remote (sent w1 q1) = (Ret tt, mkWorld tok (log w0))).
  { unfold refresh. now rewrite (bind_ret _ _ _ _ _ G). }
  pose proof (refresh_ret rt cfg remote _ _ F) as L. simpl in L.
  destruct (request_for_any_token rt cfg endpoint method query json_data w1 q1
              (mkWorld tok (log w0)) Q) as [q2 Q2].
  exists q2.
  rewrite (dispatch_retry rt cfg remote _ _ _ _ _ _ _ _ _ _ _ _ P A Q
             (client_call_reply _ _ _ R) S F Q2).
  destruct (second_call_cases remote q2 (mkWorld tok (log w0))) as [W _].
  cbv zeta in W. rewrite W. simpl. rewrite L.
  split; [reflexivity|]. split; [reflexivity|].
  clear - Q Q2. unfold issued_request, get_request, mutation_request in *.
  simpl in Q2.
  destruct (method =? "GET")%string;
    [injection Q as <-; injection Q2 as <-; repeat split|].
  destruct (method =? "POST")%string;
    [injection Q as <-; injection Q2 as <-; repeat split|].
  destruct (method =? "PUT")%string;
    [injection Q as <-; injection Q2 as <-; repeat split|].
  destruct (method =? "DELETE")%string;
    [injection Q as <-; injection Q2 as <-; repeat split|discriminate].
Qed.

(** The calls one run adds to the log (newest first): there are at most
    two logins and two requests among them, and each request is one that
    the arguments give with some token. *)
Lemma run_log endpoint method query json_data granted w :
  exists newer,
    log (world (dispatch endpoint method query json_data granted w))
    = (newer ++ log w)%list
    /\ (sends newer <= 2)%nat
    /\ (logins newer <= 2)%nat
    /\ forall q, In (Send q) newer ->
                 exists w', request_for endpoint method query json_data w' = Some q.
Proof.
  pose proof (dispatch_cases rt cfg remote endpoint method query json_data granted w)
    as D.
  cbv zeta in D.
  destruct D as [[_ D]|[[_ (e & w1 & A & D)]|[_ (w1 & A & D)]]].
  - rewrite D. exists []. simpl. repeat split; try lia.
  - rewrite D. destruct (acquire_raised rt cfg remote w e w1 A) as (_ & -> & _).
    exists [Login (login rt cfg)]. simpl. repeat split; try lia.
    intros q [H|[]]. discriminate.
  - assert (H1 : exists pre, (log w1 = pre ++ log w)%list
                             /\ sends pre = 0%nat /\ (logins pre <= 1)%nat
                             /\ forall q, ~ In (Send q) pre).
    { destruct (acquire_ret rt cfg remote w w1 A) as [[_ ->]|[_ L]].
      - exists []. simpl. repeat split; try lia.
      - exists [Login (login rt cfg)]. rewrite L. simpl. repeat split; try lia.
        intros q [H|[]]. discriminate. }
    destruct H1 as (pre & L1 & S1 & G1 & N1).
    assert (Happ : forall l, sends (l ++ pre) = sends l
                             /\ (logins (l ++ pre) <= logins l + 1)%nat).
    { induction l as [|[q|q] l [IH1 IH2]]; simpl; split; try lia. }
    destruct D as [[Q D]|(q1 & Q & [(o & _ & D)|(r1 & C & S & [(e & w2 & R & D)|(w2 & q2 & R & Q2 & D)])])].
    + rewrite D. simpl. exists pre. rewrite L1.
      split; [reflexivity|]. split; [lia|]. split; [lia|].
      intros q Hq. now destruct (N1 q).
    + rewrite D. simpl. exists (Send q1 :: pre). rewrite L1.
      destruct (Happ [Send q1]) as [E1 E2]. simpl in *.
      split; [reflexivity|]. split; [lia|]. split; [lia|].
      intros q [[= <-]|Hq]; [eauto | now destruct (N1 q)].
    + rewrite D. destruct (refresh_raised rt cfg remote _ _ _ R) as (-> & _).
      simpl. exists (Login (login rt cfg) :: Send q1 :: pre). rewrite L1.
      destruct (Happ [Login (login rt cfg); Send q1]) as [E1 E2]. simpl in *.
      split; [reflexivity|]. split; [lia|]. split; [lia|].
      intros q [H|[[= <-]|Hq]]; [discriminate | eauto | now destruct (N1 q)].
    + rewrite D. destruct (second_call_cases remote q2 w2) as [W _].
      cbv zeta in W. rewrite W. simpl.
      rewrite (refresh_ret rt cfg remote _ _ R). simpl.
      exists (Send q2 :: Login (login rt cfg) :: Send q1 :: pre). rewrite L1.
      destruct (Happ [Send q2; Login (login rt cfg); Send q1]) as [E1 E2].
      simpl in *.
      split; [reflexivity|]. split; [lia|]. split; [lia|].
      intros q [[= <-]|[H|[[= <-]|Hq]]];
        [eauto | discriminate | eauto | now destruct (N1 q)].
Qed.

Lemma sends_app l l' : sends (l ++ l') = (sends l + sends l')%nat.
Proof. induction l as [|[q|q] l IH]; simpl; lia. Qed.

Lemma logins_app l l' : logins (l ++ l') = (logins l + logins l')%nat.
Proof. induction l as [|[q|q] l IH]; simpl; lia. Qed.

(** X7. No run goes on retrying: whatever the platform answers, one
    invocation makes at most two resource requests and at most two login
    exchanges, and the calls made before it stay in the log. *)
Theorem at_most_two_requests_and_two_logins endpoint method query json_data granted w :
  (sends (log (world (dispatch endpoint method query json_data granted w)))
   <= sends (log w) + 2)%nat
  /\ (logins (log (world (dispatch endpoint method query json_data granted w)))
      <= logins (log w) + 2)%nat
  /\ exists newer,
       log (world (dispatch endpoint method query json_data granted w))
       = (newer ++ log w)%list.
Proof.
  destruct (run_log endpoint method query json_data granted w)
    as (newer & L & S & G & _).
  rewrite L, sends_app, logins_app. repeat split; try lia. now exists newer.
Qed.

(** X8. Every resource request of a run is the one the arguments describe:
    it goes to the endpoint under the base URL with the query parameters as
    given and a Bearer authorization, through the client method named by
    [method]; [json_data] is the body of a POST and of a PUT, while a GET
    and a DELETE never carry a body, whatever [json_data] is. *)
Theorem requests_follow_the_arguments endpoint method query json_data granted w q :
  In (Send q) (log (world (dispatch endpoint method query json_data granted w))) ->
  In (Send q) (log w)
  \/ (url q = api_url rt cfg endpoint
      /\ params q = query
      /\ (exists tok, authorization q = Some ("Bearer " ++ tok))
      /\ ((method = "GET" /\ verb q = GET /\ json_body q = None)
          \/ (method = "POST" /\ verb q = POST
              /\ json_body q = option_map JObj json_data)
          \/ (method = "PUT" /\ verb q = PUT
              /\ json_body q = option_map JObj json_data)
          \/ (method = "DELETE" /\ verb q = DELETE /\ json_body q = None))).
Proof.
  destruct (run_log endpoint method query json_data granted w)
    as (newer & L & _ & _ & N).
  rewrite L. intros H. apply in_app_or in H as [H|H]; [right|now left].
  destruct (N q H) as [w' Q]. clear - Q.
  unfold issued_request, get_request, mutation_request in Q.
  destruct (method =? "GET")%string eqn:E1.
  { apply String.eqb_eq in E1. injection Q as <-. simpl. eauto 10. }
  destruct (method =? "POST")%string eqn:E2.
  { apply String.eqb_eq in E2. injection Q as <-. simpl. eauto 10. }
  destruct (method =? "PUT")%string eqn:E3.
  { apply String.eqb_eq in E3. injection Q as <-. simpl. eauto 10. }
  destruct (method =? "DELETE")%string eqn:E4; [|discriminate].
  apply String.eqb_eq in E4. injection Q as <-. simpl. eauto 12.
Qed.

(** X9. The permission request can be replayed as it is: handing its
    method, endpoint, params and json_data to [execute_with_permission] runs
    the very request that was held back. *)
Theorem replaying_the_permission_request endpoint method query json_data w d w' :
  method <> "GET" ->
  dispatch endpoint method query json_data false w = (Ret (Permission d), w') ->
  w' = w
  /\ execute_with_permission rt cfg remote
       (PermissionRequest.method d) (PermissionRequest.endpoint d)
       (PermissionRequest.params d) (PermissionRequest.json_data d)
     = dispatch endpoint method query json_data true.
Proof.
  intros H. rewrite gate_closed by assumption. intros [= <- <-].
  split; reflexivity.
Qed.

End Exchange.


(** ** The resource wrappers *)

Lemma dict_get_set_same key v d : dict_get key (dict_set key v d) = Some v.
Proof.
  induction d as [|[k old] rest IH]; simpl.
  - now rewrite String.eqb_refl.
  - destruct (k =? key)%string eqn:E; simpl; now rewrite E.
Qed.

Lemma dict_get_set_other key key' v d :
  key' <> key -> dict_get key' (dict_set key v d) = dict_get key' d.
Proof.
  intros N. induction d as [|[k old] rest IH]; simpl.
  - now rewrite (eqb_neq_false key key') by congruence.
  - destruct (k =? key)%string eqn:E; simpl.
    + apply String.eqb_eq in E. subst k.
      now rewrite (eqb_neq_false key key') by congruence.
    + now rewrite IH.
Qed.

Section WrapperProperties.

Variable rt : Runtime.
Variable msg : Messages.
Variable cfg : Config.
Variable remote : Remote.

Abbreviation dispatch := (make_thingsboard_request rt cfg remote).

Lemma handled (c : M Outcome) w o w' :
  c w = (Ret o, w') ->
  (response <- c ;; handle_permission_request response) w = (Ret o, w').
Proof.
  intros H. rewrite (bind_ret _ _ _ _ _ H). unfold handle_permission_request.
  now destruct (is_permission o).
Qed.

(** With permission, a method that is none of the four makes no resource
    request, and all it can return is the unsupported-method record. *)
Lemma unsupported_replay endpoint method query json_data w :
  method <> "GET" -> method <> "POST" -> method <> "PUT" -> method <> "DELETE" ->
  sends (log (world (dispatch endpoint method query json_data true w)))
  = sends (log w)
  /\ forall o, result (dispatch endpoint method query json_data true w) = Ret o ->
               o = Unsupported ("Unsupported HTTP method: " ++ method).
Proof.
  intros H1 H2 H3 H4.
  assert (P : proceeds method true = true) by (unfold proceeds; apply orb_true_r).
  destruct (acquire_if_missing rt cfg remote w) as [[[]|e] w1] eqn:A.
  - rewrite (dispatch_unsupported rt cfg remote _ _ _ _ _ _ _ P A
               (no_client_call rt cfg _ _ _ _ _ H1 H2 H3 H4)).
    simpl. split; [now apply (acquire_sends rt cfg remote)|now intros o [= <-]].
  - rewrite (dispatch_acquire_fails rt cfg remote _ _ _ _ _ _ _ _ P A). simpl.
    destruct (acquire_raised rt cfg remote w e w1 A) as (_ & -> & _).
    split; [reflexivity|discriminate].
Qed.

Lemma lower_case_is_a_dead_end endpoint method query json_data :
  method <> "GET" -> method <> "POST" -> method <> "PUT" -> method <> "DELETE" ->
  dead_end rt cfg remote (dispatch endpoint method query json_data false).
Proof.
  intros H1 H2 H3 H4 w. eexists. split; [now apply gate_closed|].
  intros w'. cbv zeta. simpl. unfold execute_with_permission.
  now apply unsupported_replay.
Qed.

(** X10. The wrappers that name their method in lower case lead nowhere:
    each is answered with a permission request, and when that request is
    replayed through [execute_with_permission] no resource request is sent;
    the replay can only return the unsupported-method record. *)
Theorem lower_case_wrappers_lead_nowhere
    alarmId assigneeId deviceProfileId json_data
    pageSize page optPageSize optPage textSearch sortProperty sortOrder :
  dead_end rt cfg remote (ack_alarm rt cfg remote alarmId)
  /\ dead_end rt cfg remote (assign_alarm rt cfg remote alarmId assigneeId)
  /\ dead_end rt cfg remote (get_alarm_info_by_id rt cfg remote alarmId)
  /\ dead_end rt cfg remote (save_relation rt cfg remote json_data)
  /\ dead_end rt cfg remote (delete_device_profile rt cfg remote deviceProfileId)
  /\ dead_end rt cfg remote
       (get_notification_requests rt cfg remote pageSize page
          textSearch sortProperty sortOrder)
  /\ dead_end rt cfg remote
       (get_alarm_comments rt cfg remote alarmId optPageSize optPage
          sortProperty sortOrder).
Proof.
  repeat split; apply lower_case_is_a_dead_end; discriminate.
Qed.

(** X11. [acknowledge_alarm] goes through the two steps: the call itself
    sends nothing and is answered with a permission request; replaying that
    request with a token held sends one POST to alarm/<id>/ack, without
    query parameters and without a body, and returns what the platform
    answers. *)
Theorem acknowledge_alarm_asks_then_posts alarm_id w w' r o :
  truthy (auth_token w') = true ->
  send_reply remote (sends (log w'))
    (mkRequest POST (api_url rt cfg ("alarm/" ++ alarm_id ++ "/ack"))
       (Some ("Bearer " ++ fstr rt (auth_token w'))) None None)
  = Responded r ->
  is_success r = true ->
  success_outcome r = Some o ->
  exists d,
    acknowledge_alarm rt cfg remote alarm_id w = (Ret (Permission d), w)
    /\ execute_with_permission rt cfg remote
         (PermissionRequest.method d) (PermissionRequest.endpoint d)
         (PermissionRequest.params d) (PermissionRequest.json_data d) w'
       = (Ret o,
          sent w' (mkRequest POST (api_url rt cfg ("alarm/" ++ alarm_id ++ "/ack"))
                     (Some ("Bearer " ++ fstr rt (auth_token w'))) None None)).
Proof.
  intros T R S O. eexists. split.
  - unfold acknowledge_alarm. apply handled. apply gate_closed. discriminate.
  - simpl. unfold execute_with_permission.
    eapply (dispatch_first_returns rt cfg remote).
    + reflexivity.
    + now apply acquire_held.
    + reflexivity.
    + apply (client_call_reply remote). exact R.
    + now apply conclude_success.
Qed.

(** X12. [get_alarms] does not use the entity it is given: its endpoint is
    the text alarm/{entity_type}/{entity_id} as written, braces included, so
    two calls that differ only in the entity are the same run, and every
    request it sends is a GET to that URL with the page and the page size
    among the query parameters. *)
Theorem get_alarms_ignores_the_entity
    entity_type entity_id entity_type' entity_id'
    search_status severity page page_size w :
  get_alarms rt cfg remote entity_type entity_id search_status severity
    page page_size w
  = get_alarms rt cfg remote entity_type' entity_id' search_status severity
      page page_size w
  /\ forall q,
       In (Send q)
          (log (world (get_alarms rt cfg remote entity_type entity_id
                         search_status severity page page_size w))) ->
       In (Send q) (log w)
       \/ (verb q = GET
           /\ url q = api_url rt cfg "alarm/{entity_type}/{entity_id}"
           /\ exists ps,
                params q = Some ps
                /\ dict_get "page" ps = Some (JInt page)
                /\ dict_get "pageSize" ps = Some (JInt page_size)).
Proof.
  split; [reflexivity|].
  intros q H. unfold get_alarms in H.
  apply requests_follow_the_arguments in H as [H|(U & Pq & _ & V)]; [now left|].
  right.
  destruct V as [(_ & V & _)|[(E & _)|[(E & _)|(E & _)]]]; try discriminate.
  split; [exact V|]. split; [exact U|].
  eexists. split; [exact Pq|].
  unfold set_if_truthy.
  destruct (truthy (of_optional_str search_status)),
           (truthy (of_optional_str severity)); split; reflexivity.
Qed.

(** X13. [get_entity_relations] reads its direction as the exact text:
    "FROM" asks with fromId and fromType, "TO" with toId and toType, and any
    other direction asks for the relations of no entity at all; the
    relation type is sent only when one is given. *)
Theorem get_entity_relations_direction entity_id entity_type relation_type direction :
  let relation :=
    match relation_type with
    | Some r => [("relationType", JStr r)]
    | None => []
    end in
  let asks ps :=
    get_entity_relations rt cfg remote entity_id entity_type relation_type direction
    = dispatch "relations" "GET" (Some ps) None false in
  (direction = "FROM" ->
   asks (("fromId", JStr entity_id) :: ("fromType", JStr entity_type) :: relation))
  /\ (direction = "TO" ->
      asks (("toId", JStr entity_id) :: ("toType", JStr entity_type) :: relation))
  /\ (direction <> "FROM" -> direction <> "TO" -> asks relation).
Proof.
  cbv zeta. unfold get_entity_relations, get_entity_relations_params, drop_none.
  repeat split.
  - intros ->. now destruct relation_type.
  - intros ->. now destruct relation_type.
  - intros H1 H2. rewrite !(eqb_neq_false direction) by assumption.
    now destruct relation_type.
Qed.

(** X14. [get_alarm_comments] tests its optional arguments for truth, not
    for presence: a page size or a page of 0 and an empty sort property or
    order are left out of the query parameters exactly as if they had not
    been given, so page 0 can not be asked for by number. *)
Theorem get_alarm_comments_drops_zero_and_empty
    alarmId pageSize page sortProperty sortOrder w :
  let number n :=
    match n with
    | Some n => if n =? 0 then None else Some (JInt n)
    | None => None
    end in
  let text s :=
    match s with
    | Some s => if (s =? "")%string then None else Some (JStr s)
    | None => None
    end in
  exists d ps,
    get_alarm_comments rt cfg remote alarmId pageSize page sortProperty sortOrder w
    = (Ret (Permission d), w)
    /\ PermissionRequest.endpoint d = "alarm/" ++ alarmId ++ "/comment"
    /\ PermissionRequest.params d = Some ps
    /\ dict_get "pageSize" ps = number pageSize
    /\ dict_get "page" ps = number page
    /\ dict_get "sortProperty" ps = text sortProperty
    /\ dict_get "sortOrder" ps = text sortOrder.
Proof.
  cbv zeta. unfold get_alarm_comments. rewrite gate_closed by discriminate.
  do 2 eexists. split; [reflexivity|]. simpl.
  split; [reflexivity|]. split; [reflexivity|].
  unfold set_if_truthy, of_optional_int, of_optional_str, truthy.
  destruct pageSize as [n|]; [destruct (n =? 0)|];
    (destruct page as [m|]; [destruct (m =? 0)|]);
    (destruct sortProperty as [a|]; [destruct (a =? "")%string|]);
    (destruct sortOrder as [b|]; [destruct (b =? "")%string|]);
    repeat split.
Qed.

(** X15. [get_notification_requests] tests for presence instead: the page
    and the page size are always among the query parameters, 0 included,
    and a text that is given is sent even when it is empty. *)
Theorem get_notification_requests_keeps_zero_and_empty
    pageSize page textSearch sortProperty sortOrder w :
  exists d ps,
    get_notification_requests rt cfg remote pageSize page
      textSearch sortProperty sortOrder w
    = (Ret (Permission d), w)
    /\ PermissionRequest.params d = Some ps
    /\ dict_get "pageSize" ps = Some (JInt pageSize)
    /\ dict_get "page" ps = Some (JInt page)
    /\ dict_get "textSearch" ps = option_map JStr textSearch
    /\ dict_get "sortProperty" ps = option_map JStr sortProperty
    /\ dict_get "sortOrder" ps = option_map JStr sortOrder.
Proof.
  unfold get_notification_requests. rewrite gate_closed by discriminate.
  do 2 eexists. split; [reflexivity|]. simpl. split; [reflexivity|].
  unfold set_if_not_none.
  destruct textSearch, sortProperty, sortOrder; repeat split.
Qed.

(** X16. [create_device] creates nothing by itself: it is answered with a
    permission request for a POST to device whose body holds the name and
    the type, the label and the profile (as an object with its id) when
    they are given and not empty, and the additional info when it is not
    empty; the request that a replay sends carries exactly that body. *)
Theorem create_device_asks_with_the_device
    name type label device_profile_id additional_info w :
  let text s :=
    match s with
    | Some s => if (s =? "")%string then None else Some s
    | None => None
    end in
  exists d data,
    create_device rt cfg remote name type label device_profile_id additional_info w
    = (Ret (Permission d), w)
    /\ PermissionRequest.method d = "POST"
    /\ PermissionRequest.endpoint d = "device"
    /\ PermissionRequest.params d = None
    /\ PermissionRequest.json_data d = Some data
    /\ dict_get "name" data = Some (JStr name)
    /\ dict_get "type" data = Some (JStr type)
    /\ dict_get "label" data = option_map JStr (text label)
    /\ dict_get "deviceProfileId" data
       = option_map (fun i => JObj [("id", JStr i)]) (text device_profile_id)
    /\ dict_get "additionalInfo" data
       = match additional_info with
         | Some ((_ :: _) as info) => Some (JObj info)
         | _ => None
         end
    /\ forall w' q,
         In (Send q)
            (log (world (execute_with_permission rt cfg remote
                           (PermissionRequest.method d)
                           (PermissionRequest.endpoint d)
                           (PermissionRequest.params d)
                           (PermissionRequest.json_data d) w'))) ->
         In (Send q) (log w')
         \/ (verb q = POST /\ url q = api_url rt cfg "device"
             /\ params q = None /\ json_body q = Some (JObj data)).
Proof.
  cbv zeta. unfold create_device.
  do 2 eexists. split.
  { apply handled. apply gate_closed. discriminate. }
  simpl. do 4 (split; [reflexivity|]).
  unfold create_device_data, of_optional_str, of_optional_dict, truthy.
  split; [|split; [|split; [|split; [|split]]]].
  1-5: destruct label as [l|]; [destruct (l =? "")%string|];
       (destruct device_profile_id as [i|]; [destruct (i =? "")%string|]);
       (destruct additional_info as [[|kv info]|]); simpl; reflexivity.
  intros w' q H. unfold execute_with_permission in H.
  apply requests_follow_the_arguments in H as [H|(U & Pq & _ & V)]; [now left|].
  right.
  destruct V as [(E & _)|[(_ & V & B)|[(E & _)|(E & _)]]]; try discriminate.
  repeat split; assumption.
Qed.

(** *** [update_device] *)

Lemma to_py_permission endpoint method query data :
  to_py (Permission (permission_request rt endpoint method query (Some data)))
  = permission_reply rt endpoint method query (JObj data).
Proof. reflexivity. Qed.

Lemma merged_device_object fields name type label additional_info :
  merged_device msg (JObj fields) name type label additional_info
  = merge_additional_info msg (JObj (with_texts fields name type label))
      additional_info.
Proof.
  unfold merged_device, with_texts, set_if_given, set_item.
  destruct (truthy (of_optional_str name)), (truthy (of_optional_str type)),
    (truthy (of_optional_str label)); reflexivity.
Qed.

Lemma with_texts_get fields name type label key :
  let given s old :=
    match s with
    | Some s => if (s =? "")%string then old else Some (JStr s)
    | None => old
    end in
  dict_get key (with_texts fields name type label)
  = if (key =? "name")%string then given name (dict_get key fields)
    else if (key =? "type")%string then given type (dict_get key fields)
    else if (key =? "label")%string then given label (dict_get key fields)
    else dict_get key fields.
Proof.
  cbv zeta. unfold with_texts.
  assert (step : forall k s d,
             dict_get key (if truthy (of_optional_str s)
                           then dict_set k (of_optional_str s) d else d)
             = if (key =? k)%string
               then match s with
                    | Some s => if (s =? "")%string then dict_get key d
                                else Some (JStr s)
                    | None => dict_get key d
                    end
               else dict_get key d).
  { intros k [t|] d; simpl.
    - destruct (t =? "")%string; simpl.
      + now destruct (key =? k)%string.
      + destruct (key =? k)%string eqn:E.
        * apply String.eqb_eq in E. subst. apply dict_get_set_same.
        * apply String.eqb_neq in E. now apply dict_get_set_other.
    - now destruct (key =? k)%string. }
  rewrite !step.
  destruct (key =? "name")%string eqn:E1.
  { apply String.eqb_eq in E1. subst key. simpl. reflexivity. }
  destruct (key =? "type")%string eqn:E2.
  { apply String.eqb_eq in E2. subst key. simpl. reflexivity. }
  destruct (key =? "label")%string eqn:E3; reflexivity.
Qed.

(** X17. [update_device] writes nothing: the only resource requests it
    sends are GETs of device/<id>, the world it leaves is the one its read
    leaves, and a read that raises is raised by it. *)
Theorem update_device_only_reads device_id name type label additional_info w :
  snd (update_device rt msg cfg remote device_id name type label additional_info w)
  = world (get_device_by_id rt cfg remote device_id w)
  /\ (forall e,
         result (get_device_by_id rt cfg remote device_id w) = Raised e ->
         fst (update_device rt msg cfg remote device_id name type label
                additional_info w)
         = inr (FromCore e))
  /\ forall q,
       In (Send q)
          (log (snd (update_device rt msg cfg remote device_id name type label
                       additional_info w))) ->
       In (Send q) (log w)
       \/ (verb q = GET /\ url q = api_url rt cfg ("device/" ++ device_id)
           /\ json_body q = None).
Proof.
  assert (W : snd (update_device rt msg cfg remote device_id name type label
                     additional_info w)
              = world (get_device_by_id rt cfg remote device_id w)).
  { unfold update_device.
    destruct (get_device_by_id rt cfg remote device_id w) as [[o|e] w1];
      [|reflexivity].
    destruct (py_in msg "error" (to_py o)) as [[|]|e]; try reflexivity.
    destruct (merged_device msg (to_py o) name type label additional_info)
      as [data|e]; [|reflexivity].
    destruct data; reflexivity. }
  split; [exact W|]. split.
  - unfold update_device.
    destruct (get_device_by_id rt cfg remote device_id w) as [[o|e'] w1];
      simpl; [discriminate|now intros e [= <-]].
  - rewrite W. intros q H. unfold get_device_by_id in H.
    apply requests_follow_the_arguments in H as [H|(U & _ & _ & V)]; [now left|].
    right.
    destruct V as [(_ & V & B)|[(E & _)|[(E & _)|(E & _)]]]; try discriminate.
    repeat split; assumption.
Qed.

(** X18. What the read returns is handed back untouched when it has an
    "error" entry: the error record of a failed read, and also a device
    object that happens to have an entry of that name.  No permission
    request is made then, whatever changes were asked for. *)
Theorem update_device_hands_back_errors
    device_id name type label additional_info w w1 :
  (forall error details,
      get_device_by_id rt cfg remote device_id w
      = (Ret (Failure error details), w1) ->
      update_device rt msg cfg remote device_id name type label additional_info w
      = (inl (JObj [("error", JStr error); ("details", JStr details)]), w1))
  /\ (forall fields value,
         get_device_by_id rt cfg remote device_id w
         = (Ret (Payload (JObj fields)), w1) ->
         dict_get "error" fields = Some value ->
         update_device rt msg cfg remote device_id name type label
           additional_info w
         = (inl (JObj fields), w1)).
Proof.
  split.
  - intros error details G. unfold update_device. now rewrite G.
  - intros fields value G E. unfold update_device. rewrite G. simpl.
    unfold dict_has. now rewrite E.
Qed.

(** X19. When the read returns a device object (without an "error" entry)
    [update_device] is answered with a permission request for a POST to
    device whose body is that object with the changes merged in: a name, a
    type and a label that are given and not empty replace the entry of
    that name (or are added), every other entry is the device's own, and
    no additional info is asked for here. *)
Theorem update_device_asks_with_the_merged_device
    device_id name type label additional_info w w1 fields :
  get_device_by_id rt cfg remote device_id w = (Ret (Payload (JObj fields)), w1) ->
  dict_get "error" fields = None ->
  truthy (of_optional_dict additional_info) = false ->
  let given s old :=
    match s with
    | Some s => if (s =? "")%string then old else Some (JStr s)
    | None => old
    end in
  exists merged,
    update_device rt msg cfg remote device_id name type label additional_info w
    = (inl (permission_reply rt "device" "POST" None (JObj merged)), w1)
    /\ dict_get "name" merged = given name (dict_get "name" fields)
    /\ dict_get "type" merged = given type (dict_get "type" fields)
    /\ dict_get "label" merged = given label (dict_get "label" fields)
    /\ forall key, key <> "name" -> key <> "type" -> key <> "label" ->
                   dict_get key merged = dict_get key fields.
Proof.
  intros G E A. cbv zeta.
  exists (with_texts fields name type label). split.
  - unfold update_device. rewrite G. simpl. unfold dict_has. rewrite E.
    rewrite merged_device_object.
    assert (M : merge_additional_info msg
                  (JObj (with_texts fields name type label)) additional_info
                = inl (JObj (with_texts fields name type label))).
    { destruct additional_info as [[|kv info]|]; try reflexivity. discriminate. }
    rewrite M. reflexivity.
  - pose proof (with_texts_get fields name type label) as H. cbv zeta in H.
    split; [now rewrite H|]. split; [now rewrite H|]. split; [now rewrite H|].
    intros key N1 N2 N3. rewrite H.
    now rewrite !(eqb_neq_false key) by assumption.
Qed.

(** X20. Additional info is merged into the object the device holds under
    "additionalInfo" (an empty one is created when the entry is missing),
    the entries given replacing those of the same name.  When the device
    holds something else there, such as null, the update can not be asked
    for at all: an [AttributeError] leaves [update_device]. *)
Theorem update_device_merges_additional_info
    device_id name type label kv info w w1 fields :
  get_device_by_id rt cfg remote device_id w = (Ret (Payload (JObj fields)), w1) ->
  dict_get "error" fields = None ->
  let run :=
    update_device rt msg cfg remote device_id name type label
      (Some (kv :: info)) w in
  let texts := with_texts fields name type label in
  (dict_get "additionalInfo" fields = None ->
   run = (inl (permission_reply rt "device" "POST" None
                 (JObj (dict_set "additionalInfo"
                          (JObj (dict_update [] (kv :: info)))
                          (dict_set "additionalInfo" (JObj []) texts)))), w1))
  /\ (forall held,
         dict_get "additionalInfo" fields = Some (JObj held) ->
         run = (inl (permission_reply rt "device" "POST" None
                       (JObj (dict_set "additionalInfo"
                                (JObj (dict_update held (kv :: info))) texts))), w1))
  /\ (forall other,
         dict_get "additionalInfo" fields = Some other ->
         (forall held, other <> JObj held) ->
         run = (inr (AttributeError (no_attribute_text msg other "update")), w1)).
Proof.
  intros G E. cbv zeta.
  assert (K : dict_get "additionalInfo" (with_texts fields name type label)
              = dict_get "additionalInfo" fields).
  { pose proof (with_texts_get fields name type label "additionalInfo") as H.
    cbv zeta in H. now rewrite H. }
  assert (U : update_device rt msg cfg remote device_id name type label
                (Some (kv :: info)) w
              = match merge_additional_info msg
                        (JObj (with_texts fields name type label))
                        (Some (kv :: info)) with
                | inr e => (inr e, w1)
                | inl (JObj data) =>
                    (inl (permission_reply rt "device" "POST" None (JObj data)), w1)
                | inl data =>
                    (inl (permission_reply rt "device" "POST" None data), w1)
                end).
  { unfold update_device. rewrite G. simpl to_py. simpl py_in.
    unfold dict_has. rewrite E. rewrite merged_device_object.
    destruct (merge_additional_info _ _ _) as [[]|]; reflexivity. }
  rewrite U. unfold merge_additional_info, py_in, dict_has, set_item, get_item.
  rewrite K.
  split; [|split].
  - intros N. rewrite N. now rewrite dict_get_set_same.
  - intros held H. rewrite H. now rewrite K, H.
  - intros other H N. rewrite H. rewrite K, H.
    destruct other; try reflexivity. now destruct (N fields0).
Qed.

End WrapperProperties.

(** ** Startup *)

Section StartupProperties.

Variable rt : Runtime.
Variable host : Host.
Variable remote : Remote.

(** X21. With a transport that fastmcp knows and the three ThingsBoard
    variables set (to any text, the empty one included), the startup makes
    one login exchange before it serves: the token it gets is the global
    token from then on, and a login that fails stops the startup with the
    [ValueError] of [get_auth_token]. *)
Theorem main_logs_in_before_serving transport base username password w :
  MCP_SERVER_TRANSPORT host = Some transport ->
  In transport (valid_transports host) ->
  environ host "THINGSBOARD_API_BASE" = Some base ->
  environ host "THINGSBOARD_USERNAME" = Some username ->
  environ host "THINGSBOARD_PASSWORD" = Some password ->
  (forall tok w0,
      get_auth_token rt (config_of host) remote (Some username) (Some password) w
      = (Ret tok, w0) ->
      main rt host remote w
      = (Serving transport,
         mkWorld tok (Login (login rt (config_of host)) :: log w)))
  /\ (forall e w0,
         get_auth_token rt (config_of host) remote (Some username) (Some password) w
         = (Raised e, w0) ->
         main rt host remote w = (Crashed e, w0)
         /\ exists cause, e = ValueError ("Error getting token: " ++ cause)).
Proof.
  intros T V B U P.
  assert (Hv : existsb (String.eqb transport) (valid_transports host) = true).
  { apply existsb_exists. exists transport. split; [exact V|apply String.eqb_refl]. }
  assert (M : main rt host remote w
              = match get_auth_token rt (config_of host) remote
                        (Some username) (Some password) w with
                | (Raised e, w') => (Crashed e, w')
                | (Ret tok, w') => (Serving transport, mkWorld tok (log w'))
                end).
  { unfold main, is_valid_transport. rewrite T, Hv. simpl.
    unfold getenv. rewrite B, U, P. reflexivity. }
  pose proof (get_auth_token_world rt (config_of host) remote
                (Some username) (Some password) w) as W.
  pose proof (get_auth_token_raises rt (config_of host) remote
                (Some username) (Some password) w) as R.
  split.
  - intros tok w0 G. rewrite M, G. rewrite G in W. simpl in W. rewrite W. simpl.
    unfold login. simpl. unfold getenv. now rewrite U, P.
  - intros e w0 G. rewrite M, G. split; [reflexivity|].
    rewrite G in R. now apply R.
Qed.

(** X22. A startup that lacks one of the three ThingsBoard variables, or
    names a transport that fastmcp does not know, exits with status 1
    before any network call is made. *)
Theorem main_exits_when_misconfigured w :
  (exists transport,
      MCP_SERVER_TRANSPORT host = Some transport
      /\ existsb (String.eqb transport) (valid_transports host) = false)
  \/ environ host "THINGSBOARD_API_BASE" = None
  \/ environ host "THINGSBOARD_USERNAME" = None
  \/ environ host "THINGSBOARD_PASSWORD" = None ->
  exists printed, main rt host remote w = (Exit 1 printed, w).
Proof.
  intros H. unfold main, is_valid_transport.
  destruct (MCP_SERVER_TRANSPORT host) as [t|] eqn:T; [|eauto].
  destruct (existsb (String.eqb t) (valid_transports host)) eqn:V; simpl; [|eauto].
  destruct H as [(t' & [= <-] & V')|H]; [congruence|].
  unfold getenv.
  destruct (environ host "THINGSBOARD_API_BASE"); simpl; [|eauto].
  destruct (environ host "THINGSBOARD_USERNAME"); simpl; [|eauto].
  destruct (environ host "THINGSBOARD_PASSWORD"); simpl; [|eauto].
  destruct H as [H|[H|H]]; discriminate.
Qed.

End StartupProperties.

(** ** The further statements at work on stub platforms *)

Lemma get_auth_token_returns_the_token_entry_witness :
  get_auth_token Stub.runtime Stub.config (Stub.remote [Stub.token "t1"] [])
    (Some "tenant") (Some "secret") Stub.fresh
  = (Ret (JStr "t1"),
     mkWorld JNull
       [Login (login_request Stub.runtime Stub.config
                 (Some "tenant") (Some "secret"))]).
Proof.
  eapply proj1.
  eapply (get_auth_token_returns_the_token_entry Stub.runtime Stub.config
            (Stub.remote [Stub.token "t1"] []) (Some "tenant") (Some "secret")
            Stub.fresh);
    reflexivity.
Defined.

Lemma held_token_is_reused_witness :
  let run :=
    make_thingsboard_request Stub.runtime Stub.config
      (Stub.remote [] [Stub.ok (JObj [("id", JStr "abc")])])
      "device/abc" "GET" None None false (Stub.holding "t0") in
  auth_token (world run) = JStr "t0" /\ logins (log (world run)) = 0%nat.
Proof.
  cbv zeta.
  edestruct (held_token_is_reused Stub.runtime Stub.config
               (Stub.remote [] [Stub.ok (JObj [("id", JStr "abc")])])
               "device/abc" "GET" None None false (Stub.holding "t0"))
    as (T & L & _).
  - reflexivity.
  - intros q1 r1 _ R. vm_compute in R. injection R as <-. discriminate.
  - split; [exact T|exact L].
Defined.

Lemma first_use_logs_in_once_witness :
  let run :=
    make_thingsboard_request Stub.runtime Stub.config
      (Stub.remote [Stub.token "t1"] [Stub.ok (JObj [("id", JStr "abc")])])
      "device/abc" "GET" None None false Stub.fresh in
  auth_token (world run) = JStr "t1" /\ logins (log (world run)) = 1%nat.
Proof.
  cbv zeta.
  edestruct (first_use_logs_in_once Stub.runtime Stub.config
               (Stub.remote [Stub.token "t1"] [Stub.ok (JObj [("id", JStr "abc")])])
               "device/abc" "GET" None None false Stub.fresh)
    as (T & L & _).
  - reflexivity.
  - reflexivity.
  - reflexivity.
  - intros q1 r1 _ R. vm_compute in R. injection R as <-. discriminate.
  - split; [exact T|exact L].
Defined.

Lemma failure_is_not_retried_witness :
  result (make_thingsboard_request Stub.runtime Stub.config
            (Stub.remote [] [Stub.status 500])
            "device/abc" "DELETE" None None true (Stub.holding "t0"))
  = Ret (Failure "Unable to delete data from ThingsBoard" "HTTP status error").
Proof.
  rewrite (failure_is_not_retried Stub.runtime Stub.config
             (Stub.remote [] [Stub.status 500])
             "device/abc" "DELETE" None None true (Stub.holding "t0")
             (Stub.holding "t0")
             (mkRequest DELETE "http://tb/api/device/abc" (Some "Bearer t0") None None)
             (HTTPStatusError (mkResponse 500 (NotJson "Expecting value")))).
  - reflexivity.
  - reflexivity.
  - reflexivity.
  - reflexivity.
  - right. eexists. split; [reflexivity|]. left.
    split; [reflexivity|]. split; [discriminate|reflexivity].
Defined.

Lemma retry_carries_the_new_token_witness :
  exists q2,
    log (world (make_thingsboard_request Stub.runtime Stub.config
                  (Stub.remote [Stub.token "t1"] [Stub.status 401; Stub.status 503])
                  "device/abc" "GET" None None false (Stub.holding "t0")))
    = [Send q2; Login (login Stub.runtime Stub.config);
       Send (get_request Stub.runtime Stub.config "device/abc" None "Bearer t0")]
    /\ authorization q2 = Some "Bearer t1".
Proof.
  edestruct (retry_carries_the_new_token Stub.runtime Stub.config
               (Stub.remote [Stub.token "t1"] [Stub.status 401; Stub.status 503])
               "device/abc" "GET" None None false (Stub.holding "t0"))
    as (q2 & L & _ & A & _);
    [ reflexivity | reflexivity | reflexivity | reflexivity | reflexivity
    | reflexivity | ].
  exists q2. split; [exact L|exact A].
Defined.

Lemma requests_follow_the_arguments_witness :
  let q := mkRequest PUT "http://tb/api/device" (Some "Bearer t0") None
             (Some (JObj [("name", JStr "n")])) in
  In (Send q)
     (log (world (make_thingsboard_request Stub.runtime Stub.config
                    (Stub.remote [] [Stub.status 204])
                    "device" "PUT" None (Some [("name", JStr "n")]) true
                    (Stub.holding "t0"))))
  /\ (In (Send q) (log (Stub.holding "t0"))
      \/ json_body q = Some (JObj [("name", JStr "n")])).
Proof.
  cbv zeta.
  assert (H : In (Send (mkRequest PUT "http://tb/api/device" (Some "Bearer t0") None
                          (Some (JObj [("name", JStr "n")]))))
                 (log (world (make_thingsboard_request Stub.runtime Stub.config
                                (Stub.remote [] [Stub.status 204])
                                "device" "PUT" None (Some [("name", JStr "n")]) true
                                (Stub.holding "t0"))))).
  { left. reflexivity. }
  split; [exact H|].
  destruct (requests_follow_the_arguments _ _ _ _ _ _ _ _ _ _ H)
    as [O|(_ & _ & _ & [(E & _)|[(E & _)|[(_ & _ & B)|(E & _)]]])];
    try discriminate.
  - now left.
  - right. exact B.
Defined.

Lemma replaying_the_permission_request_witness :
  "DELETE" <> "GET"
  /\ execute_with_permission Stub.runtime Stub.config (Stub.remote [] [])
       "DELETE" "device/abc" None None
     = make_thingsboard_request Stub.runtime Stub.config (Stub.remote [] [])
         "device/abc" "DELETE" None None true.
Proof.
  assert (H : "DELETE" <> "GET") by discriminate.
  split; [exact H|].
  exact (proj2 (replaying_the_permission_request Stub.runtime Stub.config
                  (Stub.remote [] []) "device/abc" "DELETE" None None Stub.fresh
                  _ _ H eq_refl)).
Defined.

Lemma acknowledge_alarm_asks_then_posts_witness :
  exists d,
    acknowledge_alarm Stub.runtime Stub.config (Stub.remote [] [Stub.status 204])
      "a1" Stub.fresh
    = (Ret (Permission d), Stub.fresh)
    /\ result (execute_with_permission Stub.runtime Stub.config
                 (Stub.remote [] [Stub.status 204])
                 (PermissionRequest.method d) (PermissionRequest.endpoint d)
                 (PermissionRequest.params d) (PermissionRequest.json_data d)
                 (Stub.holding "t0"))
       = Ret Success.
Proof.
  edestruct (acknowledge_alarm_asks_then_posts Stub.runtime Stub.config
               (Stub.remote [] [Stub.status 204]) "a1" Stub.fresh (Stub.holding "t0"))
    as (d & A & E); [reflexivity | reflexivity | reflexivity | reflexivity |].
  exists d. split; [exact A|]. now rewrite E.
Defined.

Lemma update_device_asks_with_the_merged_device_witness :
  exists merged,
    fst (update_device Stub.runtime StubHost.messages Stub.config
           (Stub.remote [] [StubHost.device [("id", JStr "d1"); ("name", JStr "old")]])
           "d1" (Some "new") (Some "") None None (Stub.holding "t0"))
    = inl (permission_reply Stub.runtime "device" "POST" None (JObj merged))
    /\ dict_get "name" merged = Some (JStr "new")
    /\ dict_get "type" merged = None
    /\ dict_get "id" merged = Some (JStr "d1").
Proof.
  edestruct (update_device_asks_with_the_merged_device Stub.runtime
               StubHost.messages Stub.config
               (Stub.remote [] [StubHost.device [("id", JStr "d1"); ("name", JStr "old")]])
               "d1" (Some "new") (Some "") None None (Stub.holding "t0"))
    as (merged & U & N & T & _ & O); [reflexivity | reflexivity | reflexivity |].
  exists merged. rewrite U. split; [reflexivity|].
  split; [exact N|]. split; [exact T|].
  rewrite O by discriminate. reflexivity.
Defined.

Lemma update_device_merges_additional_info_witness :
  fst (update_device Stub.runtime StubHost.messages Stub.config
         (Stub.remote [] [StubHost.device [("id", JStr "d1"); ("additionalInfo", JNull)]])
         "d1" None None None (Some [("gateway", JBool true)]) (Stub.holding "t0"))
  = inr (AttributeError "no attribute update").
Proof.
  edestruct (update_device_merges_additional_info Stub.runtime
               StubHost.messages Stub.config
               (Stub.remote [] [StubHost.device [("id", JStr "d1"); ("additionalInfo", JNull)]])
               "d1" None None None ("gateway", JBool true) []
               (Stub.holding "t0"))
    as (_ & _ & A); [reflexivity | reflexivity |].
  rewrite (A JNull eq_refl); [reflexivity|discriminate].
Defined.

Lemma main_logs_in_before_serving_witness :
  main Stub.runtime
    (StubHost.host [("THINGSBOARD_API_BASE", "http://tb/api");
                    ("THINGSBOARD_USERNAME", "tenant");
                    ("THINGSBOARD_PASSWORD", "")])
    (Stub.remote [Stub.token "t1"] []) Stub.fresh
  = (Serving "streamable-http",
     mkWorld (JStr "t1")
       [Login (login_request Stub.runtime Stub.config (Some "tenant") (Some ""))]).
Proof.
  edestruct (main_logs_in_before_serving Stub.runtime
               (StubHost.host [("THINGSBOARD_API_BASE", "http://tb/api");
                               ("THINGSBOARD_USERNAME", "tenant");
                               ("THINGSBOARD_PASSWORD", "")])
               (Stub.remote [Stub.token "t1"] [])
               "streamable-http" "http://tb/api" "tenant" "" Stub.fresh)
    as [S _];
    [ reflexivity | do 3 right; left; reflexivity
    | reflexivity | reflexivity | reflexivity | ].
  rewrite (S (JStr "t1") _ eq_refl). reflexivity.
Defined.

Lemma main_exits_when_misconfigured_witness :
  exists printed,
    main Stub.runtime
      (StubHost.host [("THINGSBOARD_API_BASE", "http://tb/api");
                      ("THINGSBOARD_USERNAME", "tenant")])
      (Stub.remote [Stub.token "t1"] []) Stub.fresh
    = (Exit 1 printed, Stub.fresh).
Proof.
  apply (main_exits_when_misconfigured Stub.runtime
           (StubHost.host [("THINGSBOARD_API_BASE", "http://tb/api");
                           ("THINGSBOARD_USERNAME", "tenant")])
           (Stub.remote [Stub.token "t1"] []) Stub.fresh).
  do 3 right. reflexivity.
Defined.
